(** * mamba-admin: the process lifecycle commands

    A shallow embedding of [mamba/scripts/mamba_admin.py]: the [start],
    [stop] and [restart] handlers and the reactor selection, with the
    operating system abstracted as a [Host].  Every handler is a
    computation that reads and changes the host's world and leaves a trace
    of the effects the script performs (text printed, processes spawned,
    signals sent, pauses).  Strings are Python 2 [str] values: what a
    child writes is text that [in] can search.  The recursion of the
    start and the polling loop of the restart are unbounded in the script;
    here they take fuel, and a run that uses it up is [Pending]. *)

From Stdlib Require Import ZArith List String Ascii Bool Lia QArith.
From Stdlib Require DecimalString.
Import ListNotations.

Local Open Scope string_scope.
Local Open Scope Z_scope.

(** ** Python built-ins used by the script *)

Module Py.

(** [needle in hay] on [str]. *)
Fixpoint contains (needle hay : string) : bool :=
  String.prefix needle hay ||
  match hay with
  | EmptyString => false
  | String _ rest => contains needle rest
  end.

(** Truth value of a [str]: non-empty. *)
Definition truthy (s : string) : bool :=
  match s with EmptyString => false | String _ _ => true end.

Fixpoint spaces (n : nat) : string :=
  match n with O => "" | S k => String " " (spaces k) end.

(** [s.ljust(width)]. *)
Definition ljust (width : nat) (s : string) : string :=
  s ++ spaces (width - String.length s).

(** [s.split(sep)] for a one-character separator. *)
Fixpoint split (sep : ascii) (s : string) : list string :=
  match s with
  | EmptyString => [""]
  | String c rest =>
      if Ascii.eqb c sep then "" :: split sep rest
      else match split sep rest with
           | piece :: more => String c piece :: more
           | [] => [String c ""]
           end
  end.

(** [sep.join(parts)]. *)
Fixpoint join (sep : ascii) (parts : list string) : string :=
  match parts with
  | [] => ""
  | [p] => p
  | p :: more => p ++ String sep (join sep more)
  end.

(** [s.rsplit(sep, 1)]: cut at the last separator, when there is one. *)
Definition rsplit1 (sep : ascii) (s : string) : list string :=
  match rev (split sep s) with
  | tail_piece :: (_ :: _) as before => [join sep (rev before); tail_piece]
  | _ => [s]
  end.

(** [l[0]] and [l[-1]]; [None] stands for [IndexError]. *)
Definition first {A} (l : list A) : option A := hd_error l.
Definition final {A} (l : list A) : option A := hd_error (rev l).

(** [l.remove(x)]: drops the first occurrence; [None] stands for
    [ValueError] (no occurrence). *)
Fixpoint remove (x : string) (l : list string) : option (list string) :=
  match l with
  | [] => None
  | y :: rest =>
      if String.eqb y x then Some rest
      else option_map (cons y) (remove x rest)
  end.

(** ['{}'.format(n)] for an [int]. *)
Definition str_of_int (n : Z) : string :=
  DecimalString.NilZero.string_of_int (Z.to_int n).

End Py.

(** ** Data *)

(** The attributes of [mamba_services.config.Application()] the script
    reads.  [reactor] is [None] when the object has no such attribute
    ([hasattr] is false). *)
Record ApplicationConfig := {
  port : option Z;
  development : bool;
  auto_select_reactor : bool;
  reactor : option string
}.

(** [options.subOptions.opts]: the [start] sub-command has the one
    parameter [port], whose default is the empty string. *)
Record StartOptions := { opt_port : string }.

Inductive signal := SIGINT | SIGTERM | SIGKILL.

(** The exceptions that occur; [sys.exit(code)] raises [SystemExit]. *)
Inductive exn :=
| ImportError | IndexError | ValueError | IOError | OSError
| SystemExit (code : Z).

(** What the script does to the outside, in order. *)
Inductive event :=
| Write (text : string)                       (* text sent to stdout *)
| Execlp (file : string) (argv : list string) (* os.execlp *)
| Popen (argv : list string)                  (* subprocess.Popen + communicate *)
| Kill (pid : Z) (sig : signal)               (* os.kill *)
| Sleep (seconds : Q).                        (* time.sleep *)

(** ** The host

    Everything the script takes from its environment.  The platform flags
    are the constants of [mamba.core]; [darkred] and [darkgreen] are the
    colouring functions of [mamba.utils.output]; [py_int] is Python's
    [int] on a [str] ([None]: [ValueError]).  The world is abstract: the
    script only observes it, and it changes when the script waits for or
    acts on other processes. *)
Class Host := {
  World : Type;
  POSIX : bool;
  GNU_LINUX : bool;
  BSD : bool;
  OSX : bool;
  WINDOWS : bool;
  os_sep : ascii;
  darkred : string -> string;
  darkgreen : string -> string;
  py_int : string -> option Z;
  (** [import_services()] followed by loading the configuration;
      [None]: [ImportError]. *)
  import_services : World -> option ApplicationConfig;
  getuid : World -> Z;
  (** [glob.glob(pattern)]. *)
  glob : World -> string -> list string;
  (** [os.environ.get(name)]. *)
  environ : World -> string -> option string;
  (** The content of a file, [None] when it does not exist. *)
  read_file : World -> string -> option string;
  (** The world after [time.sleep]. *)
  after_sleep : World -> World;
  (** [Popen(args, ...).communicate()]: stdout, stderr and the world
      after the child has finished. *)
  communicate : list string -> World -> string * string * World;
  (** [os.kill(pid, sig)]: the error raised, if any, and the world
      after the call. *)
  kill : Z -> signal -> World -> option exn * World
}.

(** ** Computations *)

Section Lifecycle.

Context {host : Host}.

(** How a computation ends. *)
Inductive result (A : Type) :=
| Done (a : A) (w : World)     (* returned normally *)
| Raised (e : exn) (w : World) (* an exception is propagating *)
| Replaced                     (* the process image was replaced *)
| Pending.                     (* still running when the fuel ran out *)

Arguments Done {A} a w.
Arguments Raised {A} e w.
Arguments Replaced {A}.
Arguments Pending {A}.

Definition M (A : Type) : Type := World -> list event * result A.

Definition ret {A} (a : A) : M A := fun w => ([], Done a w).

Definition bind {A B} (m : M A) (k : A -> M B) : M B :=
  fun w =>
    match m w with
    | (t, Done a w') => let (t', r) := k a w' in ((t ++ t')%list, r)
    | (t, Raised e w') => (t, Raised e w')
    | (t, Replaced) => (t, Replaced)
    | (t, Pending) => (t, Pending)
    end.

Notation "x <- m ;; k" := (bind m (fun x => k))
  (at level 61, m at next level, right associativity).
Notation "m ;; k" := (bind m (fun _ => k))
  (at level 61, right associativity).

Definition observe {A} (f : World -> A) : M A := fun w => ([], Done (f w) w).
Definition emit (e : event) : M unit := fun w => ([e], Done tt w).
Definition raise {A} (e : exn) : M A := fun w => ([], Raised e w).
Definition sys_exit {A} (code : Z) : M A := raise (SystemExit code).
Definition out_of_fuel {A} : M A := fun _ => ([], Pending).

(** [print(s)] and [print(s, end='')]. *)
Definition print (s : string) : M unit := emit (Write (s ++ String "010" "")).
Definition print_end (s : string) : M unit := emit (Write s).

(** [try: body  except: handler; raise]. *)
Definition try_except_reraise {A} (body : M A) (handler : M unit) : M A :=
  fun w =>
    match body w with
    | (t, Raised e w') =>
        match handler w' with
        | (t', Done _ w'') => ((t ++ t')%list, Raised e w'')
        | (t', Raised e' w'') => ((t ++ t')%list, Raised e' w'')
        | (t', Replaced) => ((t ++ t')%list, Replaced)
        | (t', Pending) => ((t ++ t')%list, Pending)
        end
    | other => other
    end.

Definition exists_file (path : string) : M bool :=
  observe (fun w => match read_file w path with Some _ => true | None => false end).

Definition os_execlp {A} (file : string) (argv : list string) : M A :=
  fun _ => ([Execlp file argv], Replaced).

Definition popen_communicate (argv : list string) : M (string * string) :=
  fun w => let '(out, err, w') := communicate argv w in
           ([Popen argv], Done (out, err) w').

Definition os_kill (pid : Z) (sig : signal) : M unit :=
  fun w => match kill pid sig w with
           | (None, w') => ([Kill pid sig], Done tt w')
           | (Some e, w') => ([Kill pid sig], Raised e w')
           end.

Definition time_sleep (seconds : Q) : M unit :=
  fun w => ([Sleep seconds], Done tt (after_sleep w)).

(** ** [determine_platform_reactor] *)

Definition determine_platform_reactor (app : ApplicationConfig) : string :=
  let reactor_flag := fun r => "--reactor=" ++ r in
  match reactor app with
  | Some r => reactor_flag r
  | None =>
      let default :=
        if GNU_LINUX then "epoll"
        else if BSD then "kqueue"
        else if OSX then "cf"
        else if WINDOWS then "iocp"
        else "select" in
      reactor_flag default
  end.

(** ** [handle_start_command] *)

Definition not_in_root_msg : string :=
  "error: make sure you are inside a mamba application root " ++
  "directory and then run this command again".

Definition no_port_msg : string :=
  "Your application configuration file does not define a valid " ++
  "port. Is your configuration file valid JSON format?".

Definition newline : string := String "010" "".

Definition reserved_port_msg (p : Z) : string :=
  "[" ++ darkred "ERROR" ++ "]: This application is configured to use a reserved " ++
  "port (a port under 1025) only root can open a port from " ++
  "this range root access is needed to start this " ++
  "application using the " ++ Py.str_of_int p ++ " port." ++ newline ++ newline ++
  "Try something " ++
  "like: sudo mamba-admin start" ++ newline ++ newline ++
  "You can also change the " ++
  "configuration for this application editing " ++
  "'config/application.json'".

Definition no_twisted_msg : string :=
  "error: twisted directory can't be found. You should be in " ++
  "the application directory in order to start it".

Definition pid_found_msg : string :=
  "error: twistd.pid found, seems like the application is " ++
  "running already. If the application is not running, please " ++
  "delete twistd.pid and try again".

Definition starting_msg (app_name : string) : string :=
  Py.ljust 73 ("starting application " ++ app_name ++ "...").

(** [glob.glob('twisted/plugins/*.py')[0].split(os.sep)[-1].rsplit('_', 1)[0]];
    [None] stands for the [IndexError] of an empty [glob] result. *)
Definition plugin_app_name (found : list string) : option string :=
  match Py.first found with
  | None => None
  | Some path =>
      match Py.final (Py.split os_sep path) with
      | None => None
      | Some file => Py.first (Py.rsplit1 "_" file)
      end
  end.

(** ['.heroku' in os.environ.get('PYTHONHOME', '')]. *)
Definition in_heroku_env (w : World) : bool :=
  Py.contains ".heroku"
    (match environ w "PYTHONHOME" with Some v => v | None => "" end).

(** The argument vector, lines 158 and 180-191.  [None] stands for the
    [ValueError] of [args.remove]. *)
Definition build_args (app : ApplicationConfig) (in_heroku : bool)
    (app_name : string) (options : option StartOptions) : option (list string) :=
  let args := ["twistd"] in
  let args := (args ++ ["--nodaemon"])%list in
  match
    (if negb in_heroku then
       let args :=
         if negb (auto_select_reactor app)
         then (args ++ [determine_platform_reactor app])%list
         else args in
       if negb (development app) then
         match Py.remove "--nodaemon" args with
         | Some args => Some (args ++ ["--syslog"])%list
         | None => None
         end
       else Some args
     else Some args)
  with
  | None => None
  | Some args =>
      let args := (args ++ [app_name])%list in
      Some (match options with
            | Some o =>
                if Py.truthy (opt_port o)
                then (args ++ [("--port=" ++ opt_port o)%string])%list
                else args
            | None => args
            end)
  end.

(** Lines 218-220: the status line, the captured text and the exit. *)
Definition report (result : string) (exit_code : Z) (out err : string) : M unit :=
  print ("[" ++ result ++ "]") ;;
  print (if exit_code =? -1 then err else out) ;;
  sys_exit exit_code.

(** Lines 135-156: the port must be configured, and a reserved port
    needs root. *)
Definition check_port (app : ApplicationConfig) : M unit :=
  if POSIX then
    match port app with
    | None => print no_port_msg ;; sys_exit (-1)
    | Some p =>
        if p <=? 1024 then
          uid <- observe getuid ;;
          if negb (uid =? 0)
          then print (reserved_port_msg p) ;; sys_exit (-1)
          else ret tt
        else ret tt
    end
  else ret tt.

Fixpoint handle_start_command (fuel : nat) (options : option StartOptions)
    (dropin_cache_wa : bool) : M unit :=
  match fuel with
  | O => out_of_fuel
  | S fuel' =>
    mamba_services <- observe import_services ;;
    match mamba_services with
    | None => print not_in_root_msg ;; sys_exit (-1)
    | Some app =>
      check_port app ;;
      found <- observe (fun w => glob w "twisted/plugins/*.py") ;;
      match plugin_app_name found with
      | None => print no_twisted_msg ;; sys_exit (-1)
      | Some app_name =>
        running <- exists_file "twistd.pid" ;;
        if running then print pid_found_msg ;; sys_exit (-1)
        else
          in_heroku <- observe in_heroku_env ;;
          match build_args app in_heroku app_name options with
          | None => raise ValueError
          | Some args =>
            if in_heroku || development app then os_execlp "twistd" args
            else
              (if negb dropin_cache_wa
               then print_end (starting_msg app_name)
               else ret tt) ;;
              captured <- popen_communicate args ;;
              let '(out, err) := captured in
              if negb (Py.truthy err) then
                if Py.contains "exception" out then
                  report (darkred "Fail") (-1) out err
                else if Py.contains "already installed" out then
                  handle_start_command fuel' options true
                else
                  report (darkgreen "Ok") 0 out err
              else
                report (darkred "Fail") (-1) out err
          end
      end
    end
  end.

(** ** [handle_stop_command] *)

Definition no_pid_msg : string :=
  "error: twistd.pid file can't be found. You should be in the " ++
  "applicatin directory in order to stop it".

Definition killing_msg (pid : string) : string :=
  Py.ljust 73 ("killing process id " ++ pid ++ " with SIGINT signal").

(** [FilePath(path).open().read()]. *)
Definition open_read (path : string) : M string :=
  fun w => match read_file w path with
           | Some content => ([], Done content w)
           | None => ([], Raised IOError w)
           end.

(** [int(s)] as a computation: [ValueError] when [s] is no integer. *)
Definition int_of (s : string) : M Z :=
  match py_int s with
  | Some n => ret n
  | None => raise ValueError
  end.

Definition handle_stop_command : M unit :=
  mamba_services <- observe import_services ;;
  match mamba_services with
  | None => print not_in_root_msg ;; sys_exit (-1)
  | Some _ =>
    present <- exists_file "twistd.pid" ;;
    if negb present then print no_pid_msg ;; sys_exit (-1)
    else
      pid <- open_read "twistd.pid" ;;
      print_end (killing_msg pid) ;;
      try_except_reraise
        (n <- int_of pid ;;
         os_kill n SIGINT ;;
         print ("[" ++ darkgreen "Ok" ++ "]"))
        (print ("[" ++ darkred "Fail" ++ "]"))
  end.

(** ** [handle_restart_command] *)

(** [while os.path.exists('twistd.pid'): time.sleep(0.1)]. *)
Fixpoint wait_pid_removed (fuel : nat) : M unit :=
  match fuel with
  | O => out_of_fuel
  | S fuel' =>
      present <- exists_file "twistd.pid" ;;
      if present then time_sleep (1 # 10) ;; wait_pid_removed fuel'
      else ret tt
  end.

Definition handle_restart_command (fuel : nat) : M unit :=
  handle_stop_command ;;
  wait_pid_removed fuel ;;
  handle_start_command fuel None false.

End Lifecycle.

Arguments Done {host A} a w.
Arguments Raised {host A} e w.
Arguments Replaced {host A}.
Arguments Pending {host A}.

(** A run ended by [sys.exit(code)]. *)
Abbreviation Exit code w := (Raised (SystemExit code) w).

(** ** A scripted host

    A concrete world on which the handlers run: the files and settings
    the script looks at, the output of the children it spawns, and a
    stopped application that takes its marker away after some pauses. *)

Module Sim.

Record world := {
  config : option ApplicationConfig;
  uid : Z;
  plugins : list string;
  pythonhome : option string;
  pid_file : option string;
  (** pauses left before the marker goes away; [None]: it stays *)
  linger : option nat;
  (** stdout and stderr of the children to come *)
  children : list (string * string);
  (** process ids [os.kill] fails on *)
  gone : list Z
}.

Definition digit (c : ascii) : option Z :=
  let n := Z.of_nat (nat_of_ascii c) in
  if (48 <=? n) && (n <=? 57) then Some (n - 48) else None.

Fixpoint digits (acc : Z) (s : string) : option Z :=
  match s with
  | EmptyString => Some acc
  | String c rest =>
      match digit c with
      | Some d => digits (10 * acc + d) rest
      | None => None
      end
  end.

(** [int] on strings of decimal digits; anything else is refused. *)
Definition int (s : string) : option Z :=
  match s with
  | EmptyString => None
  | _ => digits 0 s
  end.

Definition sleep (w : world) : world :=
  match linger w with
  | None => w
  | Some O =>
      {| config := config w; uid := uid w; plugins := plugins w;
         pythonhome := pythonhome w; pid_file := None; linger := None;
         children := children w; gone := gone w |}
  | Some (S k) =>
      {| config := config w; uid := uid w; plugins := plugins w;
         pythonhome := pythonhome w; pid_file := pid_file w; linger := Some k;
         children := children w; gone := gone w |}
  end.

Definition spawn (argv : list string) (w : world) : string * string * world :=
  match children w with
  | [] => ("", "", w)
  | (out, err) :: later =>
      (out, err,
       {| config := config w; uid := uid w; plugins := plugins w;
          pythonhome := pythonhome w; pid_file := pid_file w; linger := linger w;
          children := later; gone := gone w |})
  end.

Definition signal_to (pid : Z) (sig : signal) (w : world) : option exn * world :=
  if existsb (Z.eqb pid) (gone w) then (Some OSError, w) else (None, w).

Definition red (s : string) : string := String "027" "[31m" ++ s ++ String "027" "[0m".
Definition green (s : string) : string := String "027" "[32m" ++ s ++ String "027" "[0m".

Definition host_of (posix linux bsd osx windows : bool) : Host :=
  {| World := world;
     POSIX := posix; GNU_LINUX := linux; BSD := bsd; OSX := osx; WINDOWS := windows;
     os_sep := if windows then "\"%char else "/"%char;
     darkred := red; darkgreen := green;
     py_int := int;
     import_services := config;
     getuid := uid;
     glob := fun w pattern =>
               if String.eqb pattern "twisted/plugins/*.py" then plugins w else [];
     environ := fun w name =>
               if String.eqb name "PYTHONHOME" then pythonhome w else None;
     read_file := fun w path =>
               if String.eqb path "twistd.pid" then pid_file w else None;
     after_sleep := sleep;
     communicate := spawn;
     kill := signal_to |}.

Definition linux : Host := host_of true true false false false.

(** A production application on port 8080, stopped. *)
Definition production : ApplicationConfig :=
  {| port := Some 8080; development := false;
     auto_select_reactor := false; reactor := None |}.

Definition stopped : world :=
  {| config := Some production; uid := 1000;
     plugins := ["twisted/plugins/dummy_plugin.py"];
     pythonhome := None; pid_file := None; linger := None;
     children := []; gone := [] |}.

Definition with_config (c : ApplicationConfig) (w : world) : world :=
  {| config := Some c; uid := uid w; plugins := plugins w;
     pythonhome := pythonhome w; pid_file := pid_file w; linger := linger w;
     children := children w; gone := gone w |}.

Definition with_pid (content : string) (after : option nat) (w : world) : world :=
  {| config := config w; uid := uid w; plugins := plugins w;
     pythonhome := pythonhome w; pid_file := Some content; linger := after;
     children := children w; gone := gone w |}.

Definition with_children (outs : list (string * string)) (w : world) : world :=
  {| config := config w; uid := uid w; plugins := plugins w;
     pythonhome := pythonhome w; pid_file := pid_file w; linger := linger w;
     children := outs; gone := gone w |}.

(** The same application configured on the reserved port 80. *)
Definition on_port_80 : ApplicationConfig :=
  {| port := Some 80; development := false;
     auto_select_reactor := false; reactor := None |}.

(** The application runs as process 4242; once signalled it takes its
    marker away during the third pause. *)
Definition running : world := with_pid "4242" (Some 2%nat) stopped.

(** A marker is there and the port is reserved. *)
Definition running_on_port_80 : world :=
  with_pid "4242" None (with_config on_port_80 stopped).

(** The runtime reports a plugin it already knows, then starts. *)
Definition stale : world := with_children [("already installed", "")] stopped.

(** The child dies with a traceback on stderr. *)
Definition broken : world := with_children [("", "Traceback")] stopped.

End Sim.

(** ** Observations on traces *)

(** The argument vectors the script launched, by [os.execlp] or by
    [Popen], in order. *)
Fixpoint launches (t : list event) : list (list string) :=
  match t with
  | [] => []
  | Execlp _ argv :: rest => argv :: launches rest
  | Popen argv :: rest => argv :: launches rest
  | _ :: rest => launches rest
  end.

(** The signals sent. *)
Fixpoint signals (t : list event) : list (Z * signal) :=
  match t with
  | [] => []
  | Kill pid sig :: rest => (pid, sig) :: signals rest
  | _ :: rest => signals rest
  end.

(** The pauses taken. *)
Fixpoint pauses (t : list event) : list Q :=
  match t with
  | [] => []
  | Sleep s :: rest => s :: pauses rest
  | _ :: rest => pauses rest
  end.

Fixpoint same_strings (l1 l2 : list string) : bool :=
  match l1, l2 with
  | [], [] => true
  | x :: r1, y :: r2 => String.eqb x y && same_strings r1 r2
  | _, _ => false
  end.

(** [l] ends with [suffix]. *)
Definition ends_with (suffix l : list string) : bool :=
  same_strings (skipn (List.length l - List.length suffix) l) suffix.

(** The platform of the specification, and the [mamba.core] flags each
    one stands for. *)
Inductive PlatformInfo := Linux | Bsd | Darwin | Windows | Other.

(** Modelled from the spec: the constants [GNU_LINUX], [BSD], [OSX] and
    [WINDOWS] of [mamba.core] are not part of the sources at hand; a host
    is on platform [p] when the flag of [p] is the only one set. *)
Definition on_platform {host : Host} (p : PlatformInfo) : Prop :=
  GNU_LINUX = (match p with Linux => true | _ => false end) /\
  BSD = (match p with Bsd => true | _ => false end) /\
  OSX = (match p with Darwin => true | _ => false end) /\
  WINDOWS = (match p with Windows => true | _ => false end).

Definition default_reactor (p : PlatformInfo) : string :=
  match p with
  | Linux => "epoll"
  | Bsd => "kqueue"
  | Darwin => "cf"
  | Windows => "iocp"
  | Other => "select"
  end.

(** The outcome of a supervised launch. *)
Inductive LaunchOutcome := Success | AlreadyRunning | Failure.

(** The tests of lines 205-216, in their order. *)
Definition classify (out err : string) : LaunchOutcome :=
  if negb (Py.truthy err) then
    if Py.contains "exception" out then Failure
    else if Py.contains "already installed" out then AlreadyRunning
    else Success
  else Failure.

(** A trace put in front of a run. *)
Definition prepend {host : Host} {A} (t : list event)
    (run : list event * result A) : list event * result A :=
  ((t ++ fst run)%list, snd run).

(** The port check of lines 135-156 lets the call go on. *)
Definition port_check_passes {host : Host} (app : ApplicationConfig) (w : World) : bool :=
  negb POSIX ||
  match port app with
  | None => false
  | Some p => negb (p <=? 1024) || (getuid w =? 0)
  end.

(** The checks that come before the launch all pass in [w]: the services
    are importable, the port check passes, a plugin file gives the
    application its name and there is no [twistd.pid]. *)
Record Preflight {host : Host} (w : World) (app : ApplicationConfig)
    (app_name : string) : Prop := {
  pre_import : import_services w = Some app;
  pre_port : port_check_passes app w = true;
  pre_plugin : plugin_app_name (glob w "twisted/plugins/*.py") = Some app_name;
  pre_marker : read_file w "twistd.pid" = None
}.

(** What the supervised path does with the captured output. *)
Definition after_spawn {host : Host} (fuel : nat) (options : option StartOptions)
    (out err : string) (w : World) : list event * result unit :=
  match classify out err with
  | Failure =>
      ([Write ("[" ++ darkred "Fail" ++ "]" ++ newline); Write (err ++ newline)],
       Exit (-1) w)
  | AlreadyRunning => handle_start_command fuel options true w
  | Success =>
      ([Write ("[" ++ darkgreen "Ok" ++ "]" ++ newline); Write (out ++ newline)],
       Exit 0 w)
  end.

Definition banner {host : Host} (dropin_cache_wa : bool) (app_name : string) : list event :=
  if dropin_cache_wa then [] else [Write (starting_msg app_name)].

(** No port is given on the command line: [start] was called without
    options, or with the default (empty) [port]. *)
Definition no_port_override (options : option StartOptions) : Prop :=
  match options with
  | None => True
  | Some o => opt_port o = ""
  end.

(** The world after [n] pauses of the polling loop. *)
Fixpoint after_pauses {host : Host} (n : nat) (w : World) : World :=
  match n with
  | O => w
  | S k => after_pauses k (after_sleep w)
  end.

(** [os.path.exists('twistd.pid')]. *)
Definition marker_present {host : Host} (w : World) : bool :=
  match read_file w "twistd.pid" with
  | Some _ => true
  | None => false
  end.

(** An argument vector built without command-line options for the
    application [app_name]. *)
Definition built_without_options {host : Host} (argv : list string) : Prop :=
  exists app in_heroku app_name,
    build_args app in_heroku app_name None = Some argv /\
    Py.final argv = Some app_name.

(** ** The command line and [run] *)

(** The keys of [options.subOptions.opts] this file reads.  The parser
    gives every parameter a default, so no key is ever missing;
    [noquestions] is a flag, counted. *)
Record Opts := {
  opts_name : string;
  opts_description : string;
  opts_app_version : string;
  opts_configfile : string;
  opts_logfile : string;
  opts_port : string;
  opts_noquestions : Z
}.

(** The parsed [Options]: [subCommand] is [None] when no sub-command was
    given. *)
Record CommandLine := {
  subCommand : option string;
  subOptions : Opts
}.

(** The generators [run] hands over to. *)
Inductive Generator := Sql | Controller | Model | View | Package.

(** What [run] takes from Twisted and from the generator modules, none
    of them part of the sources at hand: [sys.argv[0]], the parser
    ([inl text] stands for a [UsageError] with that text), the
    [Application] generator and the other generators. *)
Class Tools {host : Host} := {
  argv0 : string;
  parseOptions : M (string + CommandLine);
  Application :
    string -> string -> string -> string * string -> string -> bool -> M unit;
  generate : Generator -> CommandLine -> M unit
}.

Section Dispatch.

Context {host : Host} {tools : Tools}.

Notation "x <- m ;; k" := (bind m (fun x => k))
  (at level 61, m at next level, right associativity).
Notation "m ;; k" := (bind m (fun _ => k))
  (at level 61, right associativity).

Definition handle_application_command (options : CommandLine) : M unit :=
  let opts := subOptions options in
  Application
    (opts_name opts)
    (opts_description opts)
    (opts_app_version opts)
    (opts_configfile opts, opts_logfile opts)
    (opts_port opts)
    (if opts_noquestions opts =? 1 then true else false).

(** [options.subCommand == name]. *)
Definition is_command (options : CommandLine) (name : string) : bool :=
  match subCommand options with
  | Some given => String.eqb given name
  | None => false
  end.

(** [if test: body], with nothing to do otherwise. *)
Definition when (test : bool) (body : M unit) : M unit :=
  if test then body else ret tt.

Definition run (fuel : nat) : M unit :=
  parsed <- parseOptions ;;
  match parsed with
  | inl errortext =>
      print (argv0 ++ ": " ++ errortext) ;;
      sys_exit 1
  | inr options =>
      when (is_command options "application")
        (handle_application_command options) ;;
      when (is_command options "start")
        (handle_start_command fuel
           (Some {| opt_port := opts_port (subOptions options) |}) false) ;;
      when (is_command options "stop") handle_stop_command ;;
      when (is_command options "restart") (handle_restart_command fuel) ;;
      when (is_command options "sql") (generate Sql options) ;;
      when (is_command options "controller") (generate Controller options) ;;
      when (is_command options "model") (generate Model options) ;;
      when (is_command options "view") (generate View options) ;;
      when (is_command options "package") (generate Package options)
  end.

End Dispatch.

(** Generators that do nothing, behind a parser that gives [parsed]. *)
Definition scripted_tools (parsed : string + CommandLine) : @Tools Sim.linux :=
  {| argv0 := "mamba-admin";
     parseOptions := fun w => ([], Done parsed w);
     Application := fun _ _ _ _ _ _ w => ([], Done tt w);
     generate := fun _ _ w => ([], Done tt w) |}.

Definition no_opts : Opts :=
  {| opts_name := ""; opts_description := ""; opts_app_version := "";
     opts_configfile := ""; opts_logfile := ""; opts_port := "";
     opts_noquestions := 0 |}.

Definition command (name : string) (port_given : string) : CommandLine :=
  {| subCommand := Some name;
     subOptions :=
       {| opts_name := ""; opts_description := ""; opts_app_version := "";
          opts_configfile := ""; opts_logfile := ""; opts_port := port_given;
          opts_noquestions := 0 |} |}.

(** ** More words for the statements *)

(** What line 191 appends. *)
Definition port_option (options : option StartOptions) : list string :=
  match options with
  | Some o => if Py.truthy (opt_port o) then [("--port=" ++ opt_port o)%string] else []
  | None => []
  end.

(** What line 183 appends. *)
Definition reactor_option {host : Host} (app : ApplicationConfig) : list string :=
  if auto_select_reactor app then [] else [determine_platform_reactor app].

(** [c] does not occur in [s]. *)
Fixpoint free_of (c : ascii) (s : string) : bool :=
  match s with
  | EmptyString => true
  | String x rest => negb (Ascii.eqb x c) && free_of c rest
  end.

(** The first option of a launch tells how the child runs: an
    [os.execlp] is given [--nodaemon], a supervised child is not. *)
Definition foreground_matches (e : event) : Prop :=
  match e with
  | Execlp _ argv => nth_error argv 1 = Some "--nodaemon"
  | Popen argv =>
      nth_error argv 1 <> Some "--nodaemon" /\ In "--syslog" argv
  | _ => True
  end.

(** [retried options w w0]: from [w] the start comes to begin again in
    [w0] after zero or more supervised launches, each of them answered
    by a child whose output classified as already running. *)
Inductive retried {host : Host} (options : option StartOptions) :
    World -> World -> Prop :=
| retried_none w : retried options w w
| retried_once w w1 w0 app app_name args out err :
    Preflight w app app_name ->
    in_heroku_env w = false ->
    development app = false ->
    build_args app false app_name options = Some args ->
    communicate args w = (out, err, w1) ->
    classify out err = AlreadyRunning ->
    retried options w1 w0 ->
    retried options w w0.

(** ** More scripted worlds *)

(** The stopped application inside the managed hosting environment. *)
Definition hosted : Sim.world :=
  {| Sim.config := Some Sim.production; Sim.uid := 1000;
     Sim.plugins := ["twisted/plugins/dummy_plugin.py"];
     Sim.pythonhome := Some "/app/.heroku/python"; Sim.pid_file := None;
     Sim.linger := None; Sim.children := []; Sim.gone := [] |}.

(** The application in development mode, the reactor left to Twisted. *)
Definition in_development : ApplicationConfig :=
  {| port := Some 8080; development := true;
     auto_select_reactor := true; reactor := None |}.

(** A configuration without a port. *)
Definition portless : ApplicationConfig :=
  {| port := None; development := false;
     auto_select_reactor := false; reactor := None |}.

(** A host without privileged ports. *)
Definition unprivileged_host : Host := Sim.host_of false false false false true.

(** Process 4242 is gone already: [os.kill] fails on it. *)
Definition orphaned : Sim.world :=
  {| Sim.config := Some Sim.production; Sim.uid := 1000;
     Sim.plugins := ["twisted/plugins/dummy_plugin.py"];
     Sim.pythonhome := None; Sim.pid_file := Some "4242";
     Sim.linger := None; Sim.children := []; Sim.gone := [4242] |}.

(** No application here: the services cannot be imported. *)
Definition elsewhere : Sim.world :=
  {| Sim.config := None; Sim.uid := 1000; Sim.plugins := [];
     Sim.pythonhome := None; Sim.pid_file := Some "4242";
     Sim.linger := None; Sim.children := []; Sim.gone := [] |}.

(** The application directory has lost its plugin file. *)
Definition without_plugins : Sim.world :=
  {| Sim.config := Some Sim.production; Sim.uid := 1000; Sim.plugins := [];
     Sim.pythonhome := None; Sim.pid_file := None;
     Sim.linger := None; Sim.children := []; Sim.gone := [] |}.

(** On Windows, with no port configured. *)
Definition on_windows : Sim.world :=
  {| Sim.config := Some portless; Sim.uid := 1000;
     Sim.plugins := ["twisted/plugins\dummy_plugin.py"];
     Sim.pythonhome := None; Sim.pid_file := None;
     Sim.linger := None; Sim.children := []; Sim.gone := [] |}.

(** The child reports an exception on stdout. *)
Definition crashed : Sim.world :=
  Sim.with_children [("Unhandled exception in thread", "")] Sim.stopped.

(** * Properties *)

Section Properties.

Context {host : Host}.

(** *** Running a sequence *)

Lemma prepend_nil {A} (run : list event * result A) : prepend [] run = run.
Proof. now destruct run. Qed.

Lemma prepend_prepend {A} t1 t2 (run : list event * result A) :
  prepend t1 (prepend t2 run) = prepend (t1 ++ t2) run.
Proof. unfold prepend; cbn. now rewrite app_assoc. Qed.

Lemma bind_done {A B} (m : M A) (k : A -> M B) w t a w' :
  m w = (t, Done a w') -> bind m k w = prepend t (k a w').
Proof. intros E. unfold bind, prepend. rewrite E. now destruct (k a w'). Qed.

Lemma bind_observe {A B} (f : World -> A) (k : A -> M B) w :
  bind (observe f) k w = k (f w) w.
Proof. rewrite (bind_done _ _ w [] (f w) w eq_refl). apply prepend_nil. Qed.

Lemma bind_emit {B} e (k : unit -> M B) w :
  bind (emit e) k w = prepend [e] (k tt w).
Proof. now rewrite (bind_done _ _ w [e] tt w eq_refl). Qed.

Lemma print_exit s code w :
  bind (print s) (fun _ => @sys_exit host unit code) w =
    ([Write (s ++ newline)], Exit code w).
Proof. reflexivity. Qed.

Lemma string_app_assoc (a b c : string) : ((a ++ b) ++ c = a ++ (b ++ c))%string.
Proof. induction a as [|x a IH]; simpl; [reflexivity | now rewrite IH]. Qed.

Lemma report_run result code out err w :
  report result code out err w =
    ([Write ("[" ++ result ++ "]" ++ newline);
      Write ((if code =? -1 then err else out) ++ newline)],
     Exit code w).
Proof.
  unfold report, bind, print, emit, sys_exit, newline. cbn.
  now rewrite string_app_assoc.
Qed.

(** *** The argument vector *)

Lemma build_args_total app in_heroku app_name options :
  exists args, build_args app in_heroku app_name options = Some args.
Proof.
  unfold build_args.
  destruct in_heroku, (auto_select_reactor app), (development app);
    cbn; eexists; reflexivity.
Qed.

(** *** The port check *)

Lemma check_port_passes app w :
  port_check_passes app w = true -> check_port app w = ([], Done tt w).
Proof.
  unfold port_check_passes, check_port. intros H.
  destruct POSIX; [|reflexivity].
  destruct (port app) as [p|]; [|discriminate].
  destruct (p <=? 1024); [|reflexivity].
  cbn in H. rewrite bind_observe, H. reflexivity.
Qed.

(** Where there are no reserved ports the check is skipped. *)
Lemma check_port_skipped app w :
  POSIX = false -> check_port app w = ([], Done tt w).
Proof. intros HP. unfold check_port. now rewrite HP. Qed.

Lemma check_port_fails app w :
  port_check_passes app w = false ->
  exists text, check_port app w = ([Write text], Exit (-1) w).
Proof.
  unfold port_check_passes, check_port. intros H.
  destruct POSIX; [|discriminate].
  destruct (port app) as [p|].
  - destruct (p <=? 1024); [|discriminate].
    cbn in H. rewrite bind_observe, H. cbn [negb].
    eexists. apply print_exit.
  - eexists. apply print_exit.
Qed.

(** *** One call of [handle_start_command] *)

Lemma start_launch fuel options dropin w app app_name args :
  Preflight w app app_name ->
  build_args app (in_heroku_env w) app_name options = Some args ->
  handle_start_command (S fuel) options dropin w =
    if in_heroku_env w || development app
    then ([Execlp "twistd" args], Replaced)
    else
      let '(out, err, w') := communicate args w in
      prepend (banner dropin app_name ++ [Popen args])
              (after_spawn fuel options out err w').
Proof.
  intros [Himp Hport Hplug Hpid] Hargs.
  cbn [handle_start_command].
  rewrite bind_observe, Himp.
  rewrite (bind_done _ _ _ _ _ _ (check_port_passes _ _ Hport)), prepend_nil.
  rewrite bind_observe, Hplug.
  unfold exists_file. rewrite bind_observe, Hpid.
  rewrite bind_observe, Hargs.
  destruct (in_heroku_env w || development app); [reflexivity|].
  assert (Hbanner :
    (if negb dropin then print_end (starting_msg app_name) else ret tt) w =
      (banner dropin app_name, Done tt w)) by now destruct dropin.
  rewrite (bind_done _ _ _ _ _ _ Hbanner).
  unfold popen_communicate.
  destruct (communicate args w) as [[out err] w'] eqn:Hrun.
  erewrite bind_done by (rewrite Hrun; reflexivity).
  rewrite prepend_prepend. f_equal.
  unfold after_spawn, classify.
  destruct (negb (Py.truthy err)).
  - destruct (Py.contains "exception" out); [apply report_run|].
    destruct (Py.contains "already installed" out);
      [reflexivity | apply report_run].
  - apply report_run.
Qed.

Lemma launches_app t1 t2 : launches (t1 ++ t2) = (launches t1 ++ launches t2)%list.
Proof.
  induction t1 as [|e t1 IH]; [reflexivity|].
  destruct e; cbn; now rewrite ?IH.
Qed.

Lemma launches_banner dropin app_name : launches (banner dropin app_name) = [].
Proof. now destruct dropin. Qed.

Lemma launches_pauses n : launches (repeat (Sleep (1 # 10)) n) = [].
Proof. induction n; [reflexivity | assumption]. Qed.

Create Rewrite HintDb traces.
Hint Rewrite launches_app launches_banner launches_pauses : traces.

(** *** Reactor selection *)

(** C7: without a configured reactor the selector gives the default of
    the platform (Linux: epoll, BSD: kqueue, Darwin: cf, Windows: iocp,
    anything else: select), and a configured reactor is passed on
    unchanged whatever the platform; either way as the [--reactor=]
    option of [twistd]. *)
Theorem reactor_selection (p : PlatformInfo) (app : ApplicationConfig) :
  on_platform p ->
  (reactor app = None ->
     determine_platform_reactor app = "--reactor=" ++ default_reactor p) /\
  (forall r, reactor app = Some r ->
     determine_platform_reactor app = "--reactor=" ++ r).
Proof.
  intros (Hl & Hb & Ho & Hw). unfold determine_platform_reactor. split.
  - intros ->. rewrite Hl, Hb, Ho, Hw. now destruct p.
  - now intros r ->.
Qed.

Lemma reactor_flag_shape app :
  exists r, determine_platform_reactor app = "--reactor=" ++ r.
Proof.
  unfold determine_platform_reactor.
  destruct (reactor app); eexists; reflexivity.
Qed.

(** *** The argument vector of a production start *)

Lemma build_args_production app app_name options :
  development app = false ->
  auto_select_reactor app = false ->
  no_port_override options ->
  build_args app false app_name options =
    Some ["twistd"; determine_platform_reactor app; "--syslog"; app_name].
Proof.
  intros Hdev Hauto Hopt. unfold build_args. rewrite Hdev, Hauto. cbn.
  destruct options as [o|]; [|reflexivity].
  cbn in Hopt. now rewrite Hopt.
Qed.

(** C1 (amended): a production start on Linux, outside managed hosting,
    with the reactor not selected automatically and no port override,
    spawns [twistd] with the reactor option first, then [--syslog], then
    the application name: the vector ends with
    [--reactor=epoll; --syslog; <appName>] when no reactor is
    configured, and nothing in front of the application name is
    [--nodaemon]. *)
Theorem production_argv fuel options dropin w app app_name :
  Preflight w app app_name ->
  GNU_LINUX = true ->
  development app = false ->
  auto_select_reactor app = false ->
  in_heroku_env w = false ->
  no_port_override options ->
  let flag := determine_platform_reactor app in
  let argv := ["twistd"; flag; "--syslog"; app_name] in
  launches (banner dropin app_name ++ [Popen argv]) = [argv] /\
  (exists rest,
     handle_start_command (S fuel) options dropin w =
       prepend (banner dropin app_name ++ [Popen argv]) rest) /\
  ends_with [flag; "--syslog"; app_name] argv = true /\
  ~ In "--nodaemon" ["twistd"; flag; "--syslog"] /\
  (reactor app = None -> flag = "--reactor=epoll").
Proof.
  intros Hpre Hlinux Hdev Hauto Hheroku Hopt flag argv.
  assert (Hargs : build_args app (in_heroku_env w) app_name options = Some argv).
  { rewrite Hheroku. now apply build_args_production. }
  repeat split.
  - now autorewrite with traces.
  - rewrite (start_launch fuel options dropin w app app_name argv Hpre Hargs).
    rewrite Hheroku, Hdev. cbn [orb].
    destruct (communicate argv w) as [[out err] w'].
    eexists. reflexivity.
  - unfold ends_with, argv. cbn. now rewrite !String.eqb_refl.
  - destruct (reactor_flag_shape app) as [r Hr]. fold flag in Hr.
    cbn. rewrite Hr. intros [H|[H|[H|[]]]]; discriminate H.
  - intros Hnone. unfold flag, determine_platform_reactor.
    now rewrite Hnone, Hlinux.
Qed.

(** *** Classification of the captured output *)

Lemma classify_already_running out err :
  classify out err = AlreadyRunning <->
  err = "" /\ Py.contains "exception" out = false /\
  Py.contains "already installed" out = true.
Proof.
  unfold classify. destruct err as [|c err]; cbn [Py.truthy negb].
  - destruct (Py.contains "exception" out),
             (Py.contains "already installed" out);
      split; intros H; try discriminate H; try tauto;
      destruct H as (_ & H1 & H2); discriminate.
  - split; [discriminate | intros (H & _); discriminate H].
Qed.

(** C2: on the supervised path the output of the child is read in this
    order: anything on stderr is a failure with exit code -1; with an
    empty stderr, [exception] in stdout is a failure with exit code -1;
    otherwise [already installed] in stdout means already running (the
    start is run again); otherwise the start succeeded, exit code 0. *)
Theorem supervised_outcome fuel options dropin w app app_name args out err w' :
  Preflight w app app_name ->
  in_heroku_env w = false ->
  development app = false ->
  build_args app false app_name options = Some args ->
  communicate args w = (out, err, w') ->
  let run := handle_start_command (S fuel) options dropin w in
  let spawn := (banner dropin app_name ++ [Popen args])%list in
  let fail := Write ("[" ++ darkred "Fail" ++ "]" ++ newline) in
  let ok := Write ("[" ++ darkgreen "Ok" ++ "]" ++ newline) in
  (err <> "" ->
     classify out err = Failure /\
     run = ((spawn ++ [fail; Write (err ++ newline)])%list, Exit (-1) w')) /\
  (err = "" -> Py.contains "exception" out = true ->
     classify out err = Failure /\
     run = ((spawn ++ [fail; Write (err ++ newline)])%list, Exit (-1) w')) /\
  (err = "" -> Py.contains "exception" out = false ->
   Py.contains "already installed" out = true ->
     classify out err = AlreadyRunning /\
     run = prepend spawn (handle_start_command fuel options true w')) /\
  (err = "" -> Py.contains "exception" out = false ->
   Py.contains "already installed" out = false ->
     classify out err = Success /\
     run = ((spawn ++ [ok; Write (out ++ newline)])%list, Exit 0 w')).
Proof.
  intros Hpre Hheroku Hdev Hargs Hrun run spawn fail ok.
  assert (E : run = prepend spawn (after_spawn fuel options out err w')).
  { unfold run. rewrite <- Hheroku in Hargs.
    rewrite (start_launch _ _ _ _ _ _ _ Hpre Hargs), Hheroku, Hdev, Hrun.
    reflexivity. }
  rewrite E. unfold after_spawn, classify.
  split; [|split; [|split]].
  - intros Herr. destruct err; [congruence | now split].
  - intros -> Hexc. cbn. rewrite Hexc. now split.
  - intros -> Hexc Hinst. cbn. rewrite Hexc, Hinst. now split.
  - intros -> Hexc Hinst. cbn. rewrite Hexc, Hinst. now split.
Qed.

(** C3: when the output of the child classifies as already running
    (which needs [already installed] in stdout and an empty stderr), the
    call goes on with one more [handle_start_command], with the same
    options, from its first line, in the world the child left: what
    follows the spawn is exactly the run of that call. *)
Theorem already_running_retries fuel options dropin w app app_name args out err w' :
  Preflight w app app_name ->
  in_heroku_env w = false ->
  development app = false ->
  build_args app false app_name options = Some args ->
  communicate args w = (out, err, w') ->
  classify out err = AlreadyRunning ->
  (Py.contains "already installed" out = true /\ err = "") /\
  launches (banner dropin app_name ++ [Popen args]) = [args] /\
  handle_start_command (S fuel) options dropin w =
    prepend (banner dropin app_name ++ [Popen args])
            (handle_start_command fuel options true w').
Proof.
  intros Hpre Hheroku Hdev Hargs Hrun Hclass.
  apply classify_already_running in Hclass as Hcond.
  destruct Hcond as (Herr & Hexc & Hinst).
  repeat split; try assumption.
  - now autorewrite with traces.
  - rewrite <- Hheroku in Hargs.
    rewrite (start_launch _ _ _ _ _ _ _ Hpre Hargs), Hheroku, Hdev, Hrun.
    cbn [orb]. unfold after_spawn. now rewrite Hclass.
Qed.

(** *** The checks before the launch *)

Lemma bind_raised {A B} (m : M A) (k : A -> M B) w t e w' :
  m w = (t, Raised e w') -> bind m k w = (t, Raised e w').
Proof. intros E. unfold bind. now rewrite E. Qed.

(** Every call either stops at one of its checks, with one line of
    text and exit code -1, or passes them all. *)
Lemma start_checks fuel options dropin w :
  let run := handle_start_command (S fuel) options dropin w in
  match import_services w with
  | None => run = ([Write (not_in_root_msg ++ newline)], Exit (-1) w)
  | Some app =>
      if port_check_passes app w then
        match plugin_app_name (glob w "twisted/plugins/*.py") with
        | None => run = ([Write (no_twisted_msg ++ newline)], Exit (-1) w)
        | Some app_name =>
            match read_file w "twistd.pid" with
            | Some _ => run = ([Write (pid_found_msg ++ newline)], Exit (-1) w)
            | None => Preflight w app app_name
            end
        end
      else
        exists text,
          check_port app w = ([Write text], Exit (-1) w) /\
          run = ([Write text], Exit (-1) w)
  end.
Proof.
  intros run. unfold run. cbn [handle_start_command].
  rewrite bind_observe.
  destruct (import_services w) as [app|] eqn:Himp; [|apply print_exit].
  destruct (port_check_passes app w) eqn:Hport.
  - rewrite (bind_done _ _ _ _ _ _ (check_port_passes _ _ Hport)), prepend_nil.
    rewrite bind_observe.
    destruct (plugin_app_name _) as [app_name|] eqn:Hplug; [|apply print_exit].
    unfold exists_file. rewrite bind_observe.
    destruct (read_file w "twistd.pid") eqn:Hpid; [apply print_exit|].
    now constructor.
  - destruct (check_port_fails _ _ Hport) as [text Hfail].
    exists text. split; [assumption|].
    now apply bind_raised.
Qed.

Lemma check_port_missing app w :
  POSIX = true -> port app = None ->
  check_port app w = ([Write (no_port_msg ++ newline)], Exit (-1) w).
Proof. intros HP Hp. unfold check_port. rewrite HP, Hp. apply print_exit. Qed.

Lemma check_port_reserved app w p :
  POSIX = true -> port app = Some p -> p <= 1024 -> getuid w <> 0 ->
  check_port app w = ([Write (reserved_port_msg p ++ newline)], Exit (-1) w).
Proof.
  intros HP Hp Hle Huid. unfold check_port. rewrite HP, Hp.
  apply Z.leb_le in Hle. rewrite Hle, bind_observe.
  apply Z.eqb_neq in Huid. rewrite Huid. apply print_exit.
Qed.

Lemma reserved_port_msg_head p :
  exists rest, reserved_port_msg p ++ newline = String "[" rest.
Proof. unfold reserved_port_msg. cbn. eexists. reflexivity. Qed.

(** A call that passes the port check does not end as the refusal of a
    reserved port does. *)
Lemma passed_is_not_refused fuel options dropin w app p :
  import_services w = Some app ->
  port_check_passes app w = true ->
  handle_start_command (S fuel) options dropin w <>
    ([Write (reserved_port_msg p ++ newline)], Exit (-1) w).
Proof.
  intros Himp Hport Hrun.
  destruct (reserved_port_msg_head p) as [rest Hhead]. rewrite Hhead in Hrun.
  pose proof (start_checks fuel options dropin w) as Hc. cbn zeta in Hc.
  rewrite Himp, Hport in Hc.
  destruct (plugin_app_name _) as [app_name|].
  - destruct (read_file w "twistd.pid").
    + rewrite Hc in Hrun. discriminate Hrun.
    + destruct (build_args_total app (in_heroku_env w) app_name options)
        as [args Hargs].
      rewrite (start_launch _ _ _ _ _ _ _ Hc Hargs) in Hrun.
      destruct (in_heroku_env w || development app); [discriminate Hrun|].
      destruct (communicate args w) as [[out err] w'].
      destruct (after_spawn fuel options out err w') as [t r].
      unfold prepend in Hrun. destruct dropin; cbn in Hrun; discriminate Hrun.
  - rewrite Hc in Hrun. discriminate Hrun.
Qed.

(** C9: once the checks that precede the launch have passed, the call
    replaces the process image by [twistd] (one [os.execlp], nothing
    captured, no return) exactly when the process is in the managed
    hosting environment or the application is in development mode; in
    every other case it spawns [twistd] as a child and classifies what
    the child wrote. *)
Theorem launch_strategy fuel options dropin w app app_name :
  Preflight w app app_name ->
  let run := handle_start_command (S fuel) options dropin w in
  exists args,
    build_args app (in_heroku_env w) app_name options = Some args /\
    (run = ([Execlp "twistd" args], Replaced) <->
       in_heroku_env w = true \/ development app = true) /\
    (in_heroku_env w = false -> development app = false ->
       exists out err w',
         communicate args w = (out, err, w') /\
         launches (banner dropin app_name ++ [Popen args]) = [args] /\
         run = prepend (banner dropin app_name ++ [Popen args])
                       (after_spawn fuel options out err w')).
Proof.
  intros Hpre run.
  destruct (build_args_total app (in_heroku_env w) app_name options) as [args Hargs].
  exists args. split; [assumption|].
  assert (E := start_launch fuel options dropin w app app_name args Hpre Hargs).
  fold run in E.
  assert (Hspawned : in_heroku_env w || development app = false ->
            forall argv, fst run <> [Execlp "twistd" argv]).
  { intros Hb argv Hexec. rewrite E, Hb in Hexec.
    destruct (communicate args w) as [[out err] w'].
    unfold prepend in Hexec. destruct dropin; cbn in Hexec; discriminate Hexec. }
  assert (Hor : in_heroku_env w || development app = true ->
            in_heroku_env w = true \/ development app = true)
    by (intros H; now apply orb_true_iff).
  split; [split|].
  - intros Hexec. apply Hor.
    destruct (in_heroku_env w || development app) eqn:Hb; [reflexivity|].
    exfalso. apply (Hspawned eq_refl args). now rewrite Hexec.
  - intros H. rewrite E.
    destruct H as [-> | ->]; [reflexivity | now rewrite orb_true_r].
  - intros Hheroku Hdev. rewrite E, Hheroku, Hdev. cbn [orb].
    destruct (communicate args w) as [[out err] w'].
    exists out, err, w'. repeat split.
    now autorewrite with traces.
Qed.

(** Without any assumption on the checks: a call that ends in
    [os.execlp] is in the managed hosting environment or in development
    mode. *)
Lemma exec_needs_heroku_or_development fuel options dropin w argv :
  handle_start_command (S fuel) options dropin w = ([Execlp "twistd" argv], Replaced) ->
  exists app, import_services w = Some app /\
    (in_heroku_env w = true \/ development app = true).
Proof.
  intros Hexec.
  pose proof (start_checks fuel options dropin w) as Hc. cbn zeta in Hc.
  destruct (import_services w) as [app|];
    [|rewrite Hc in Hexec; discriminate Hexec].
  exists app. split; [reflexivity|].
  destruct (port_check_passes app w);
    [|destruct Hc as (text & _ & Hrun); rewrite Hrun in Hexec; discriminate Hexec].
  destruct (plugin_app_name _) as [app_name|];
    [|rewrite Hc in Hexec; discriminate Hexec].
  destruct (read_file w "twistd.pid");
    [rewrite Hc in Hexec; discriminate Hexec|].
  destruct (build_args_total app (in_heroku_env w) app_name options)
    as [args Hargs].
  rewrite (start_launch _ _ _ _ _ _ _ Hc Hargs) in Hexec.
  destruct (in_heroku_env w); [now left|].
  destruct (development app); [now right|].
  cbn [orb] in Hexec.
  destruct (communicate args w) as [[out err] w'].
  destruct (after_spawn fuel options out err w') as [t r].
  unfold prepend in Hexec. destruct dropin; cbn in Hexec; discriminate Hexec.
Qed.

(** C6: on a POSIX platform, with the configuration loaded, a start
    whose port is not configured prints the missing-port text and exits
    with -1 before anything is launched; it ends as the refusal of a
    reserved port exactly when the port is at most 1024 and the user is
    not root; and a port above 1024 passes the check whoever runs it. *)
Theorem port_validation fuel options dropin w app :
  POSIX = true ->
  import_services w = Some app ->
  let run := handle_start_command (S fuel) options dropin w in
  (port app = None ->
     run = ([Write (no_port_msg ++ newline)], Exit (-1) w) /\
     launches (fst run) = []) /\
  (forall p, port app = Some p ->
     (run = ([Write (reserved_port_msg p ++ newline)], Exit (-1) w) <->
        p <= 1024 /\ getuid w <> 0) /\
     (run = ([Write (reserved_port_msg p ++ newline)], Exit (-1) w) ->
        launches (fst run) = []) /\
     (1024 < p -> check_port app w = ([], Done tt w))).
Proof.
  intros HP Himp run.
  pose proof (start_checks fuel options dropin w) as Hc. cbn zeta in Hc.
  fold run in Hc. rewrite Himp in Hc.
  split.
  - intros Hnone.
    assert (Hfalse : port_check_passes app w = false).
    { unfold port_check_passes. now rewrite HP, Hnone. }
    rewrite Hfalse in Hc. destruct Hc as (text & Hcheck & Hrun).
    rewrite (check_port_missing _ _ HP Hnone) in Hcheck.
    injection Hcheck as <-. rewrite Hrun. now split.
  - intros p Hsome.
    assert (Hpass : 1024 < p \/ getuid w = 0 -> port_check_passes app w = true).
    { intros H. unfold port_check_passes. rewrite HP, Hsome. cbn.
      destruct H as [Hgt | Huid].
      - apply Z.leb_gt in Hgt. now rewrite Hgt.
      - rewrite Huid. apply orb_true_r. }
    assert (Hdenied : p <= 1024 /\ getuid w <> 0 ->
              run = ([Write (reserved_port_msg p ++ newline)], Exit (-1) w)).
    { intros (Hle & Huid).
      assert (Hfalse : port_check_passes app w = false).
      { unfold port_check_passes. rewrite HP, Hsome. cbn.
        apply Z.leb_le in Hle. apply Z.eqb_neq in Huid.
        now rewrite Hle, Huid. }
      rewrite Hfalse in Hc. destruct Hc as (text & Hcheck & Hrun).
      rewrite (check_port_reserved _ _ _ HP Hsome Hle Huid) in Hcheck.
      injection Hcheck as <-. exact Hrun. }
    split; [split|split].
    + intros Hrun. split.
      * destruct (Z.leb_spec p 1024) as [Hle|Hgt]; [assumption|].
        exfalso.
        exact (passed_is_not_refused _ _ _ _ _ _ Himp (Hpass (or_introl Hgt)) Hrun).
      * intros Huid.
        exact (passed_is_not_refused _ _ _ _ _ _ Himp (Hpass (or_intror Huid)) Hrun).
    + exact Hdenied.
    + intros ->. reflexivity.
    + intros Hgt. apply check_port_passes. auto.
Qed.

(** C4 (amended): whenever [twistd.pid] exists, a start prints one line,
    ends with exit code -1 and launches nothing.  The line is the
    already-running error when the checks that come first pass (the
    services are importable, the port check passes, a plugin file is
    found); otherwise it is the line of the first check that fails: the
    not-in-root error when the services cannot be imported, else the
    missing-port or the reserved-port error of the port check, else the
    twisted-directory error; and the port check fails in no other way
    than these two. *)
Theorem marker_blocks_start fuel options dropin w content :
  read_file w "twistd.pid" = Some content ->
  let run := handle_start_command (S fuel) options dropin w in
  let ends_with_line text := run = ([Write (text ++ newline)], Exit (-1) w) in
  (exists text, run = ([Write text], Exit (-1) w)) /\
  launches (fst run) = [] /\
  (forall app app_name,
     import_services w = Some app ->
     port_check_passes app w = true ->
     plugin_app_name (glob w "twisted/plugins/*.py") = Some app_name ->
     ends_with_line pid_found_msg) /\
  (import_services w = None -> ends_with_line not_in_root_msg) /\
  (forall app,
     import_services w = Some app -> POSIX = true -> port app = None ->
     ends_with_line no_port_msg) /\
  (forall app p,
     import_services w = Some app -> POSIX = true -> port app = Some p ->
     p <= 1024 -> getuid w <> 0 ->
     ends_with_line (reserved_port_msg p)) /\
  (forall app,
     import_services w = Some app ->
     port_check_passes app w = true ->
     plugin_app_name (glob w "twisted/plugins/*.py") = None ->
     ends_with_line no_twisted_msg) /\
  (forall app,
     port_check_passes app w = false ->
     POSIX = true /\
     (port app = None \/
      exists p, port app = Some p /\ p <= 1024 /\ getuid w <> 0)).
Proof.
  intros Hpid run ends_with_line. unfold ends_with_line.
  pose proof (start_checks fuel options dropin w) as Hc. cbn zeta in Hc.
  fold run in Hc.
  assert (Hone : exists text, run = ([Write text], Exit (-1) w)).
  { destruct (import_services w) as [app|]; [|eauto].
    destruct (port_check_passes app w).
    - destruct (plugin_app_name _); [|eauto].
      rewrite Hpid in Hc. eauto.
    - destruct Hc as (text & _ & Hrun). eauto. }
  assert (Hrefused : forall app text,
            import_services w = Some app ->
            check_port app w = ([Write text], Exit (-1) w) ->
            run = ([Write text], Exit (-1) w)).
  { intros app text Himp Hcheck. rewrite Himp in Hc.
    destruct (port_check_passes app w) eqn:Hport.
    - rewrite (check_port_passes _ _ Hport) in Hcheck. discriminate Hcheck.
    - destruct Hc as (text' & Hcheck' & Hrun).
      rewrite Hcheck in Hcheck'. injection Hcheck' as <-. exact Hrun. }
  split; [exact Hone|]. split; [|split; [|split; [|split; [|split; [|split]]]]].
  - destruct Hone as [text ->]. reflexivity.
  - intros app app_name Himp Hport Hplug.
    now rewrite Himp, Hport, Hplug, Hpid in Hc.
  - intros Himp. now rewrite Himp in Hc.
  - intros app Himp HP Hnone.
    exact (Hrefused app _ Himp (check_port_missing _ _ HP Hnone)).
  - intros app p Himp HP Hsome Hle Huid.
    exact (Hrefused app _ Himp (check_port_reserved _ _ _ HP Hsome Hle Huid)).
  - intros app Himp Hport Hplug.
    now rewrite Himp, Hport, Hplug in Hc.
  - intros app Hfalse. unfold port_check_passes in Hfalse.
    destruct POSIX; [|discriminate Hfalse]. split; [reflexivity|].
    destruct (port app) as [p|]; [|now left]. right. exists p.
    cbn in Hfalse. apply orb_false_iff in Hfalse as [Hle Huid].
    apply negb_false_iff, Z.leb_le in Hle. apply Z.eqb_neq in Huid.
    now repeat split.
Qed.

(** *** Stop *)

Lemma stop_run w :
  handle_stop_command w =
    match import_services w with
    | None => ([Write (not_in_root_msg ++ newline)], Exit (-1) w)
    | Some _ =>
        match read_file w "twistd.pid" with
        | None => ([Write (no_pid_msg ++ newline)], Exit (-1) w)
        | Some pid =>
            match py_int pid with
            | None =>
                ([Write (killing_msg pid);
                  Write ("[" ++ darkred "Fail" ++ "]" ++ newline)],
                 Raised ValueError w)
            | Some n =>
                match kill n SIGINT w with
                | (None, w') =>
                    ([Write (killing_msg pid); Kill n SIGINT;
                      Write ("[" ++ darkgreen "Ok" ++ "]" ++ newline)],
                     Done tt w')
                | (Some e, w') =>
                    ([Write (killing_msg pid); Kill n SIGINT;
                      Write ("[" ++ darkred "Fail" ++ "]" ++ newline)],
                     Raised e w')
                end
            end
        end
    end.
Proof.
  unfold handle_stop_command. rewrite bind_observe.
  destruct (import_services w); [|apply print_exit].
  unfold exists_file. rewrite bind_observe.
  destruct (read_file w "twistd.pid") as [pid|] eqn:Hpid; [|apply print_exit].
  cbn [negb].
  assert (Hread : open_read "twistd.pid" w = ([], Done pid w))
    by (unfold open_read; now rewrite Hpid).
  rewrite (bind_done _ _ _ _ _ _ Hread), prepend_nil.
  unfold print_end. rewrite bind_emit.
  unfold try_except_reraise, int_of, bind, os_kill, print, emit, raise, ret.
  destruct (py_int pid) as [n|].
  - destruct (kill n SIGINT w) as [[e|] w']; cbn;
      now rewrite !string_app_assoc.
  - cbn. now rewrite !string_app_assoc.
Qed.

(** C5: with the services importable, a stop without [twistd.pid]
    prints the not-found error, signals nobody and exits with -1; with a
    process id in the marker, the stop announces the kill, sends SIGINT
    to that process id, prints [Ok] and returns at once when [os.kill]
    raised nothing, and prints [Fail] and lets the error go up when it
    raised; it never pauses and never looks at the marker again. *)
Theorem stop_signals w app :
  import_services w = Some app ->
  let run := handle_stop_command w in
  pauses (fst run) = [] /\
  (read_file w "twistd.pid" = None ->
     run = ([Write (no_pid_msg ++ newline)], Exit (-1) w) /\
     signals (fst run) = []) /\
  (forall pid n,
     read_file w "twistd.pid" = Some pid ->
     py_int pid = Some n ->
     killing_msg pid =
       Py.ljust 73 ("killing process id " ++ pid ++ " with SIGINT signal") /\
     signals (fst run) = [(n, SIGINT)] /\
     (forall w', kill n SIGINT w = (None, w') ->
        run =
          ([Write (killing_msg pid); Kill n SIGINT;
            Write ("[" ++ darkgreen "Ok" ++ "]" ++ newline)],
           Done tt w')) /\
     (forall e w', kill n SIGINT w = (Some e, w') ->
        run =
          ([Write (killing_msg pid); Kill n SIGINT;
            Write ("[" ++ darkred "Fail" ++ "]" ++ newline)],
           Raised e w'))).
Proof.
  intros Himp run. unfold run. rewrite stop_run, Himp. split; [|split].
  - destruct (read_file w "twistd.pid") as [pid|]; [|reflexivity].
    destruct (py_int pid) as [n|]; [|reflexivity].
    now destruct (kill n SIGINT w) as [[e|] w'].
  - now intros ->.
  - intros pid n -> ->. split; [reflexivity|]. split.
    + now destruct (kill n SIGINT w) as [[e|] w'].
    + split; [intros w' -> | intros e w' ->]; reflexivity.
Qed.

(** Whatever the services, a stop without the marker signals nobody and
    ends with exit code -1. *)
Lemma stop_without_marker w :
  read_file w "twistd.pid" = None ->
  exists text, handle_stop_command w = ([Write text], Exit (-1) w).
Proof.
  intros Hnone. rewrite stop_run, Hnone.
  destruct (import_services w); eexists; reflexivity.
Qed.

(** *** Restart *)

Lemma wait_cases fuel : forall w,
  (exists n, (n < fuel)%nat /\
     (forall k, (k < n)%nat -> marker_present (after_pauses k w) = true) /\
     marker_present (after_pauses n w) = false /\
     wait_pid_removed fuel w =
       (repeat (Sleep (1 # 10)) n, Done tt (after_pauses n w))) \/
  ((forall k, (k < fuel)%nat -> marker_present (after_pauses k w) = true) /\
   wait_pid_removed fuel w = (repeat (Sleep (1 # 10)) fuel, Pending)).
Proof.
  induction fuel as [|fuel IH]; intros w.
  - right. split; [intros k Hk; inversion Hk | reflexivity].
  - cbn [wait_pid_removed]. unfold exists_file. rewrite bind_observe.
    fold (marker_present w).
    destruct (marker_present w) eqn:Hnow.
    + unfold time_sleep.
      rewrite (bind_done _ _ w [Sleep (1 # 10)] tt (after_sleep w) eq_refl).
      destruct (IH (after_sleep w)) as [(n & Hn & Hbefore & Hgone & Hrun) | (Hall & Hrun)].
      * left. exists (S n). repeat split.
        -- lia.
        -- intros [|k] Hk; [exact Hnow | apply Hbefore; lia].
        -- exact Hgone.
        -- rewrite Hrun. reflexivity.
      * right. split.
        -- intros [|k] Hk; [exact Hnow | apply Hall; lia].
        -- rewrite Hrun. reflexivity.
    + left. exists O. repeat split.
      * lia.
      * intros k Hk; inversion Hk.
      * exact Hnow.
Qed.

Lemma bind_other {A B} (m : M A) (k : A -> M B) w t r :
  m w = (t, r) -> (forall a w', r <> Done a w') ->
  exists r', bind m k w = (t, r') /\ (forall b w', r' <> Done b w') /\
    (r = Pending -> r' = Pending).
Proof.
  intros E Hr. unfold bind. rewrite E.
  destruct r; [now destruct (Hr a w0) | | |];
    eexists; (split; [reflexivity | split; [discriminate|]]);
    intros H; (reflexivity || discriminate H).
Qed.

(** C8: a restart runs the stop first; when the stop returns it checks
    for [twistd.pid], pausing 0.1 s after each check that finds it, for
    as long as the file is there.  If the file is gone at the check after
    [n] pauses, the start begins then, in the world of that check, where
    the file is absent; if every check found the file, the restart is
    still waiting, however long the run is followed; and there is no
    third case, so a start never begins while the file is there. *)
Theorem restart_waits fuel w t w1 :
  handle_stop_command w = (t, Done tt w1) ->
  let run := handle_restart_command fuel w in
  let found k := marker_present (after_pauses k w1) in
  (forall n, (n < fuel)%nat ->
     (forall k, (k < n)%nat -> found k = true) -> found n = false ->
     run = prepend (t ++ repeat (Sleep (1 # 10)) n)
             (handle_start_command fuel None false (after_pauses n w1))) /\
  ((forall k, (k < fuel)%nat -> found k = true) ->
     run = ((t ++ repeat (Sleep (1 # 10)) fuel)%list, Pending) /\
     launches (fst run) = launches t) /\
  ((exists n, (n < fuel)%nat /\
      (forall k, (k < n)%nat -> found k = true) /\ found n = false) \/
   (forall k, (k < fuel)%nat -> found k = true)).
Proof.
  intros Hstop run found. unfold run, handle_restart_command.
  rewrite (bind_done _ _ _ _ _ _ Hstop).
  destruct (wait_cases fuel w1)
    as [(n & Hn & Hbefore & Hgone & Hrun) | (Hall & Hrun)].
  - split; [|split].
    + intros m Hm Hm_before Hm_gone.
      assert (m = n) as ->.
      { destruct (Nat.lt_trichotomy m n) as [Hlt | [Heq | Hgt]];
          [| exact Heq |].
        - specialize (Hbefore m Hlt). unfold found in Hm_gone. congruence.
        - specialize (Hm_before n Hgt). unfold found in Hm_before. congruence. }
      rewrite (bind_done _ _ _ _ _ _ Hrun). apply prepend_prepend.
    + intros Hall. specialize (Hall n Hn). unfold found in Hall. congruence.
    + left. now exists n.
  - split; [|split].
    + intros m Hm _ Hm_gone. specialize (Hall m Hm).
      unfold found in Hm_gone. congruence.
    + intros _.
      assert (E : bind (wait_pid_removed fuel)
                    (fun _ => handle_start_command fuel None false) w1 =
                  (repeat (Sleep (1 # 10)) fuel, Pending))
        by (unfold bind; now rewrite Hrun).
      rewrite E. unfold prepend. cbn [fst snd].
      split; [reflexivity|].
      autorewrite with traces. apply app_nil_r.
    + now right.
Qed.

Lemma restart_ends_with_stop fuel w t r :
  handle_stop_command w = (t, r) ->
  (forall u w1, r <> Done u w1) ->
  fst (handle_restart_command fuel w) = t /\
  (forall u w1, snd (handle_restart_command fuel w) <> Done u w1).
Proof.
  intros Hstop Hr. unfold handle_restart_command.
  destruct (bind_other _ (fun _ => bind (wait_pid_removed fuel)
              (fun _ => handle_start_command fuel None false)) _ _ _ Hstop Hr)
    as (r' & -> & Hr' & _).
  now split.
Qed.

(** *** What gets launched *)

Lemma build_args_final app in_heroku app_name argv :
  build_args app in_heroku app_name None = Some argv ->
  Py.final argv = Some app_name.
Proof.
  unfold build_args.
  destruct in_heroku, (auto_select_reactor app), (development app); cbn;
    intros H; injection H as <-; reflexivity.
Qed.

Lemma build_args_port app in_heroku app_name o :
  Py.truthy (opt_port o) = true ->
  build_args app in_heroku app_name (Some o) =
    option_map (fun argv => argv ++ ["--port=" ++ opt_port o]%string)%list
               (build_args app in_heroku app_name None).
Proof.
  intros Hp. unfold build_args.
  destruct in_heroku, (auto_select_reactor app), (development app); cbn;
    now rewrite Hp.
Qed.

Lemma start_launches_built options fuel : forall dropin w,
  Forall (fun argv => exists app in_heroku app_name,
            build_args app in_heroku app_name options = Some argv)
         (launches (fst (handle_start_command fuel options dropin w))).
Proof.
  induction fuel as [|fuel IH]; intros dropin w; [constructor|].
  pose proof (start_checks fuel options dropin w) as Hc. cbn zeta in Hc.
  destruct (import_services w) as [app|]; [|rewrite Hc; constructor].
  destruct (port_check_passes app w);
    [|destruct Hc as (text & _ & ->); constructor].
  destruct (plugin_app_name _) as [app_name|]; [|rewrite Hc; constructor].
  destruct (read_file w "twistd.pid"); [rewrite Hc; constructor|].
  destruct (build_args_total app (in_heroku_env w) app_name options)
    as [args Hargs].
  rewrite (start_launch _ _ _ _ _ _ _ Hc Hargs).
  assert (Hbuilt : exists a h n, build_args a h n options = Some args)
    by (now exists app, (in_heroku_env w), app_name).
  destruct (in_heroku_env w || development app).
  - cbn. constructor; [exact Hbuilt | constructor].
  - destruct (communicate args w) as [[out err] w'].
    unfold prepend. cbn [fst].
    rewrite !launches_app, launches_banner. cbn.
    constructor; [exact Hbuilt|].
    unfold after_spawn.
    destruct (classify out err); [constructor | apply IH | constructor].
Qed.

Lemma stop_launches_nothing w : launches (fst (handle_stop_command w)) = [].
Proof.
  rewrite stop_run.
  destruct (import_services w); [|reflexivity].
  destruct (read_file w "twistd.pid") as [pid|]; [|reflexivity].
  destruct (py_int pid) as [n|]; [|reflexivity].
  now destruct (kill n SIGINT w) as [[e|] w'].
Qed.

(** C10: the start of a restart is called without options, so every
    argument vector a restart launches is one built without options: it
    ends with the application name and carries no [--port=] override
    after it, whereas a start given a port puts [--port=<port>] last. *)
Theorem restart_without_port_override fuel w :
  Forall built_without_options
         (launches (fst (handle_restart_command fuel w))) /\
  (forall app in_heroku app_name o,
     Py.truthy (opt_port o) = true ->
     build_args app in_heroku app_name (Some o) =
       option_map (fun argv => argv ++ ["--port=" ++ opt_port o]%string)%list
                  (build_args app in_heroku app_name None)).
Proof.
  split; [|intros; now apply build_args_port].
  assert (Hstart : forall w', Forall built_without_options
            (launches (fst (handle_start_command fuel None false w')))).
  { intros w'. eapply Forall_impl; [|apply start_launches_built].
    intros argv (app & h & n & Hb). exists app, h, n.
    split; [exact Hb | now apply build_args_final in Hb]. }
  destruct (handle_stop_command w) as [t r] eqn:Hstop.
  pose proof (stop_launches_nothing w) as Hnone. rewrite Hstop in Hnone.
  cbn [fst] in Hnone.
  destruct r as [[] w1| | |].
  - unfold handle_restart_command. rewrite (bind_done _ _ _ _ _ _ Hstop).
    destruct (wait_cases fuel w1) as [(n & _ & _ & _ & Hrun) | (_ & Hrun)].
    + rewrite (bind_done _ _ _ _ _ _ Hrun). unfold prepend. cbn [fst].
      autorewrite with traces. rewrite Hnone. apply Hstart.
    + unfold bind. rewrite Hrun. unfold prepend. cbn [fst].
      autorewrite with traces. rewrite Hnone. constructor.
  - destruct (restart_ends_with_stop fuel w _ _ Hstop) as [-> _];
      [discriminate | rewrite Hnone; constructor].
  - destruct (restart_ends_with_stop fuel w _ _ Hstop) as [-> _];
      [discriminate | rewrite Hnone; constructor].
  - destruct (restart_ends_with_stop fuel w _ _ Hstop) as [-> _];
      [discriminate | rewrite Hnone; constructor].
Qed.

End Properties.

(** * Runs on the scripted host *)

Lemma stopped_preflight : @Preflight Sim.linux Sim.stopped Sim.production "dummy".
Proof. constructor; reflexivity. Qed.

Lemma reactor_selection_witness :
  @on_platform Sim.linux Linux /\
  @determine_platform_reactor Sim.linux Sim.production = "--reactor=epoll".
Proof.
  assert (H : @on_platform Sim.linux Linux) by (repeat split).
  split; [exact H|].
  exact (proj1 (@reactor_selection Sim.linux Linux Sim.production H) eq_refl).
Defined.

(** C1 as stated fails: a production start on Linux spawns
    [twistd --reactor=epoll --syslog dummy], which does not end with
    [--syslog; --reactor=epoll; dummy]. *)
Lemma production_argv_order_counterexample :
  @GNU_LINUX Sim.linux = true /\
  development Sim.production = false /\
  auto_select_reactor Sim.production = false /\
  @in_heroku_env Sim.linux Sim.stopped = false /\
  launches (fst (@handle_start_command Sim.linux 1 None false Sim.stopped)) =
    [["twistd"; "--reactor=epoll"; "--syslog"; "dummy"]] /\
  ends_with ["--syslog"; "--reactor=epoll"; "dummy"]
            ["twistd"; "--reactor=epoll"; "--syslog"; "dummy"] = false.
Proof. repeat split. Qed.

Lemma production_argv_witness :
  @Preflight Sim.linux Sim.stopped Sim.production "dummy" /\
  ends_with ["--reactor=epoll"; "--syslog"; "dummy"]
            ["twistd"; "--reactor=epoll"; "--syslog"; "dummy"] = true.
Proof.
  split; [exact stopped_preflight|].
  exact (proj1 (proj2 (proj2
    (@production_argv Sim.linux 0 None false Sim.stopped Sim.production "dummy"
       stopped_preflight eq_refl eq_refl eq_refl eq_refl I)))).
Defined.

Lemma supervised_outcome_witness :
  @Preflight Sim.linux Sim.broken Sim.production "dummy" /\
  snd (@handle_start_command Sim.linux 1 None false Sim.broken) =
    @Raised Sim.linux unit (SystemExit (-1)) Sim.stopped.
Proof.
  assert (P : @Preflight Sim.linux Sim.broken Sim.production "dummy")
    by (constructor; reflexivity).
  split; [exact P|].
  assert (Herr : "Traceback" <> "") by discriminate.
  destruct (proj1 (@supervised_outcome Sim.linux 0 None false Sim.broken
              Sim.production "dummy"
              ["twistd"; "--reactor=epoll"; "--syslog"; "dummy"]
              "" "Traceback" Sim.stopped P eq_refl eq_refl eq_refl eq_refl) Herr)
    as [_ ->].
  reflexivity.
Defined.

Lemma already_running_retries_witness :
  classify "already installed" "" = AlreadyRunning /\
  @handle_start_command Sim.linux 2 None false Sim.stale =
    prepend [Write (starting_msg "dummy");
             Popen ["twistd"; "--reactor=epoll"; "--syslog"; "dummy"]]
            (@handle_start_command Sim.linux 1 None true Sim.stopped).
Proof.
  assert (P : @Preflight Sim.linux Sim.stale Sim.production "dummy")
    by (constructor; reflexivity).
  split; [reflexivity|].
  exact (proj2 (proj2 (@already_running_retries Sim.linux 1 None false Sim.stale
           Sim.production "dummy"
           ["twistd"; "--reactor=epoll"; "--syslog"; "dummy"]
           "already installed" "" Sim.stopped P eq_refl eq_refl eq_refl eq_refl
           eq_refl))).
Defined.

(** C4 as stated fails: with a marker present and the application on
    the reserved port 80, a start by an ordinary user ends with the
    reserved-port error, not with the already-running one. *)
Lemma marker_reserved_port_counterexample :
  @read_file Sim.linux Sim.running_on_port_80 "twistd.pid" = Some "4242" /\
  @handle_start_command Sim.linux 1 None false Sim.running_on_port_80 =
    ([Write (@reserved_port_msg Sim.linux 80 ++ newline)],
     @Raised Sim.linux unit (SystemExit (-1)) Sim.running_on_port_80) /\
  @handle_start_command Sim.linux 1 None false Sim.running_on_port_80 <>
    ([Write (pid_found_msg ++ newline)],
     @Raised Sim.linux unit (SystemExit (-1)) Sim.running_on_port_80).
Proof. repeat split. vm_compute. discriminate. Qed.

Lemma marker_blocks_start_witness :
  @read_file Sim.linux Sim.running "twistd.pid" = Some "4242" /\
  @handle_start_command Sim.linux 1 None false Sim.running =
    ([Write (pid_found_msg ++ newline)],
     @Raised Sim.linux unit (SystemExit (-1)) Sim.running).
Proof.
  split; [reflexivity|].
  exact (proj1 (proj2 (proj2 (@marker_blocks_start Sim.linux 0 None false
           Sim.running "4242" eq_refl))) Sim.production "dummy"
           eq_refl eq_refl eq_refl).
Defined.

Lemma stop_signals_witness :
  @import_services Sim.linux Sim.running = Some Sim.production /\
  @handle_stop_command Sim.linux Sim.running =
    ([Write (killing_msg "4242"); Kill 4242 SIGINT;
      Write ("[" ++ Sim.green "Ok" ++ "]" ++ newline)],
     @Done Sim.linux unit tt Sim.running).
Proof.
  split; [reflexivity|].
  exact (proj1 (proj2 (proj2 (proj2 (proj2 (@stop_signals Sim.linux Sim.running
           Sim.production eq_refl)) "4242" 4242 eq_refl eq_refl)))
         Sim.running eq_refl).
Defined.

Lemma port_validation_witness :
  @POSIX Sim.linux = true /\
  @handle_start_command Sim.linux 1 None false
      (Sim.with_config Sim.on_port_80 Sim.stopped) =
    ([Write (@reserved_port_msg Sim.linux 80 ++ newline)],
     @Raised Sim.linux unit (SystemExit (-1))
        (Sim.with_config Sim.on_port_80 Sim.stopped)).
Proof.
  split; [reflexivity|].
  assert (Hle : 80 <= 1024) by lia.
  assert (Huid : 1000 <> 0) by lia.
  exact (proj2 (proj1 (proj2 (@port_validation Sim.linux 0 None false
           (Sim.with_config Sim.on_port_80 Sim.stopped) Sim.on_port_80
           eq_refl eq_refl) 80 eq_refl)) (conj Hle Huid)).
Defined.

Lemma restart_waits_witness :
  @handle_stop_command Sim.linux Sim.running =
    ([Write (killing_msg "4242"); Kill 4242 SIGINT;
      Write ("[" ++ Sim.green "Ok" ++ "]" ++ newline)],
     @Done Sim.linux unit tt Sim.running) /\
  @handle_restart_command Sim.linux 5 Sim.running =
    prepend
      ([Write (killing_msg "4242"); Kill 4242 SIGINT;
        Write ("[" ++ Sim.green "Ok" ++ "]" ++ newline)]
       ++ repeat (Sleep (1 # 10)) 3)
      (@handle_start_command Sim.linux 5 None false Sim.stopped).
Proof.
  split; [reflexivity|].
  assert (H3 : (3 < 5)%nat) by lia.
  assert (Hfound : forall k, (k < 3)%nat ->
            @marker_present Sim.linux (@after_pauses Sim.linux k Sim.running) = true).
  { intros [|[|[|k]]] Hk; try reflexivity. exfalso. lia. }
  exact (proj1 (@restart_waits Sim.linux 5 Sim.running
           [Write (killing_msg "4242"); Kill 4242 SIGINT;
            Write ("[" ++ Sim.green "Ok" ++ "]" ++ newline)]
           Sim.running eq_refl) 3%nat H3 Hfound eq_refl).
Defined.

Lemma launch_strategy_witness :
  exists args,
    @build_args Sim.linux Sim.production false "dummy" None = Some args /\
    exists out err w',
      @handle_start_command Sim.linux 1 None false Sim.stopped =
        prepend [Write (starting_msg "dummy"); Popen args]
                (@after_spawn Sim.linux 0 None out err w').
Proof.
  destruct (@launch_strategy Sim.linux 0 None false Sim.stopped Sim.production
              "dummy" stopped_preflight) as (args & Hargs & _ & Hspawn).
  exists args. split; [exact Hargs|].
  destruct (Hspawn eq_refl eq_refl) as (out & err & w' & _ & _ & Hrun).
  now exists out, err, w'.
Defined.

(** ** Whole runs *)

Example start_production_run :
  @handle_start_command Sim.linux 1 None false Sim.stopped =
    ([Write (starting_msg "dummy");
      Popen ["twistd"; "--reactor=epoll"; "--syslog"; "dummy"];
      Write ("[" ++ Sim.green "Ok" ++ "]" ++ newline);
      Write newline],
     @Raised Sim.linux unit (SystemExit 0) Sim.stopped).
Proof. reflexivity. Qed.

Example start_with_port_run :
  launches (fst (@handle_start_command Sim.linux 1
                   (Some {| opt_port := "9000" |}) false Sim.stopped)) =
    [["twistd"; "--reactor=epoll"; "--syslog"; "dummy"; "--port=9000"]].
Proof. reflexivity. Qed.

Example start_stale_run :
  launches (fst (@handle_start_command Sim.linux 2 None false Sim.stale)) =
    [["twistd"; "--reactor=epoll"; "--syslog"; "dummy"];
     ["twistd"; "--reactor=epoll"; "--syslog"; "dummy"]].
Proof. reflexivity. Qed.

(** [exception] is looked for first. *)
Example exception_before_already_installed :
  classify "exception: plugin already installed" "" = Failure.
Proof. reflexivity. Qed.

Example stop_unreadable_marker_run :
  @handle_stop_command Sim.linux (Sim.with_pid "abc" None Sim.stopped) =
    ([Write (killing_msg "abc");
      Write ("[" ++ Sim.red "Fail" ++ "]" ++ newline)],
     @Raised Sim.linux unit ValueError (Sim.with_pid "abc" None Sim.stopped)).
Proof. reflexivity. Qed.

Example restart_run :
  @handle_restart_command Sim.linux 5 Sim.running =
    ([Write (killing_msg "4242"); Kill 4242 SIGINT;
      Write ("[" ++ Sim.green "Ok" ++ "]" ++ newline);
      Sleep (1 # 10); Sleep (1 # 10); Sleep (1 # 10);
      Write (starting_msg "dummy");
      Popen ["twistd"; "--reactor=epoll"; "--syslog"; "dummy"];
      Write ("[" ++ Sim.green "Ok" ++ "]" ++ newline);
      Write newline],
     @Raised Sim.linux unit (SystemExit 0) Sim.stopped).
Proof. reflexivity. Qed.

Example restart_never_ends_run :
  snd (@handle_restart_command Sim.linux 50 (Sim.with_pid "4242" None Sim.stopped)) =
    @Pending Sim.linux unit /\
  pauses (fst (@handle_restart_command Sim.linux 50
                 (Sim.with_pid "4242" None Sim.stopped))) =
    repeat (1 # 10)%Q 50.
Proof. split; reflexivity. Qed.


(** * Further properties of the handlers *)

Section Further.

Context {host : Host}.

(** *** The shape of the argument vector *)

Lemma build_args_shape app in_heroku app_name options :
  build_args app in_heroku app_name options =
    Some (if in_heroku
          then ["twistd"; "--nodaemon"; app_name] ++ port_option options
          else if development app
          then ["twistd"; "--nodaemon"] ++ reactor_option app
               ++ [app_name] ++ port_option options
          else ["twistd"] ++ reactor_option app
               ++ ["--syslog"; app_name] ++ port_option options)%list.
Proof.
  unfold build_args, reactor_option, port_option.
  destruct in_heroku, (auto_select_reactor app), (development app),
    options as [o|]; cbn; try destruct (Py.truthy (opt_port o)); reflexivity.
Qed.

Lemma reactor_is_not_nodaemon app :
  determine_platform_reactor app <> "--nodaemon".
Proof.
  destruct (reactor_flag_shape app) as [r ->]. discriminate.
Qed.

Lemma signals_app t1 t2 : signals (t1 ++ t2) = (signals t1 ++ signals t2)%list.
Proof.
  induction t1 as [|e t1 IH]; [reflexivity|].
  destruct e; cbn; now rewrite ?IH.
Qed.

Lemma pauses_app t1 t2 : pauses (t1 ++ t2) = (pauses t1 ++ pauses t2)%list.
Proof.
  induction t1 as [|e t1 IH]; [reflexivity|].
  destruct e; cbn; now rewrite ?IH.
Qed.

(** The cases of one call, for proofs by induction on the fuel: the call
    stops at a check with one line of text, or replaces the process, or
    spawns a child and goes on as [after_spawn] says. *)
Lemma start_cases fuel options dropin w :
  let run := handle_start_command (S fuel) options dropin w in
  (exists text, run = ([Write text], Exit (-1) w)) \/
  (exists app app_name args,
     Preflight w app app_name /\
     build_args app (in_heroku_env w) app_name options = Some args /\
     ((in_heroku_env w || development app = true /\
       run = ([Execlp "twistd" args], Replaced)) \/
      (in_heroku_env w = false /\ development app = false /\
       exists out err w',
         communicate args w = (out, err, w') /\
         run = prepend (banner dropin app_name ++ [Popen args])
                       (after_spawn fuel options out err w')))).
Proof.
  intros run.
  pose proof (start_checks fuel options dropin w) as Hc. cbn zeta in Hc.
  fold run in Hc.
  destruct (import_services w) as [app|]; [|left; eauto].
  destruct (port_check_passes app w);
    [|destruct Hc as (text & _ & Hrun); left; eauto].
  destruct (plugin_app_name _) as [app_name|]; [|left; eauto].
  destruct (read_file w "twistd.pid"); [left; eauto|].
  right.
  destruct (build_args_total app (in_heroku_env w) app_name options)
    as [args Hargs].
  exists app, app_name, args. split; [exact Hc|]. split; [exact Hargs|].
  pose proof (start_launch fuel options dropin w app app_name args Hc Hargs) as E.
  fold run in E.
  destruct (in_heroku_env w || development app) eqn:Hb.
  - left. now split.
  - right. apply orb_false_iff in Hb as [Hh Hd].
    split; [exact Hh|]. split; [exact Hd|].
    destruct (communicate args w) as [[out err] w'].
    now exists out, err, w'.
Qed.

(** X2: a start sends no signal and takes no pause. *)
Theorem start_is_quiet options fuel : forall dropin w,
  signals (fst (handle_start_command fuel options dropin w)) = [] /\
  pauses (fst (handle_start_command fuel options dropin w)) = [].
Proof.
  induction fuel as [|fuel IH]; intros dropin w; [now split|].
  destruct (start_cases fuel options dropin w)
    as [[text ->] | (app & app_name & args & _ & _ & Hrun)]; [now split|].
  destruct Hrun as [[_ ->] | (_ & _ & out & err & w' & _ & ->)]; [now split|].
  unfold prepend, after_spawn. cbn [fst].
  rewrite !signals_app, !pauses_app.
  assert (Hb : signals (banner dropin app_name) = [] /\
               pauses (banner dropin app_name) = []) by now destruct dropin.
  destruct Hb as [-> ->]. cbn [List.app signals pauses].
  destruct (classify out err); [now split | apply IH | now split].
Qed.

Lemma classify_success out err :
  classify out err = Success ->
  err = "" /\ Py.contains "exception" out = false /\
  Py.contains "already installed" out = false.
Proof.
  unfold classify. destruct err as [|c err]; cbn [Py.truthy negb];
    [|discriminate].
  destruct (Py.contains "exception" out); [discriminate|].
  destruct (Py.contains "already installed" out); [discriminate|].
  now intros _.
Qed.

(** X3: exit code 0 is reached only through a spawned child whose
    output passed every test.  After zero or more retries the start
    stands in a world where its checks pass, outside managed hosting and
    development mode; the child it spawns there writes nothing to stderr
    and a stdout with neither [exception] nor [already installed], and
    leaves the world the start exits in; the run ends with that spawn,
    the [Ok] line and that stdout. *)
Theorem exit_zero_means_success options fuel : forall dropin w w',
  snd (handle_start_command fuel options dropin w) = Exit 0 w' ->
  exists w0 app app_name args out before,
    retried options w w0 /\
    Preflight w0 app app_name /\
    in_heroku_env w0 = false /\
    development app = false /\
    build_args app false app_name options = Some args /\
    communicate args w0 = (out, "", w') /\
    classify out "" = Success /\
    fst (handle_start_command fuel options dropin w) =
      (before ++ [Popen args;
                  Write ("[" ++ darkgreen "Ok" ++ "]" ++ newline);
                  Write (out ++ newline)])%list.
Proof.
  induction fuel as [|fuel IH]; intros dropin w w' Hexit; [discriminate Hexit|].
  destruct (start_cases fuel options dropin w)
    as [[text Hrun] | (app & app_name & args & Hpre & Hargs & Hrun)].
  - rewrite Hrun in Hexit. discriminate Hexit.
  - destruct Hrun as [[_ Hrun] | (Hh & Hd & out & err & w1 & Hchild & Hrun)];
      rewrite Hrun in Hexit |- *; [discriminate Hexit|].
    rewrite Hh in Hargs.
    unfold prepend, after_spawn in Hexit |- *. cbn [fst snd] in Hexit |- *.
    destruct (classify out err) eqn:Hclass.
    + apply classify_success in Hclass as Hcond. destruct Hcond as (-> & _ & _).
      injection Hexit as <-.
      exists w, app, app_name, args, out, (banner dropin app_name).
      split; [constructor|]. split; [exact Hpre|]. split; [exact Hh|].
      split; [exact Hd|]. split; [exact Hargs|]. split; [exact Hchild|].
      split; [exact Hclass|]. now rewrite <- app_assoc.
    + destruct (IH true w1 w' Hexit)
        as (w0 & app0 & name0 & args0 & out0 & before
            & Hretried & Hpre0 & Hh0 & Hd0 & Hargs0 & Hchild0 & Hok & ->).
      exists w0, app0, name0, args0, out0,
        ((banner dropin app_name ++ [Popen args]) ++ before)%list.
      split; [eapply retried_once; eassumption|].
      split; [exact Hpre0|]. split; [exact Hh0|]. split; [exact Hd0|].
      split; [exact Hargs0|]. split; [exact Hchild0|]. split; [exact Hok|].
      now rewrite app_assoc.
    + discriminate Hexit.
Qed.

(** X4: in the managed hosting environment a start that passes its
    checks replaces the process by [twistd --nodaemon <appName>],
    followed by the port override if one is given: neither the reactor
    nor the development setting of the application changes a thing. *)
Theorem hosted_argv fuel options dropin w app app_name :
  Preflight w app app_name ->
  in_heroku_env w = true ->
  handle_start_command (S fuel) options dropin w =
    ([Execlp "twistd" (["twistd"; "--nodaemon"; app_name] ++ port_option options)],
     Replaced).
Proof.
  intros Hpre Hheroku.
  rewrite (start_launch fuel options dropin w app app_name _ Hpre
             (build_args_shape _ _ _ _)).
  now rewrite Hheroku.
Qed.

(** X5: in development mode, outside managed hosting, a start that
    passes its checks replaces the process by [twistd --nodaemon],
    then the reactor option unless the reactor is selected
    automatically, then the application name and the port override. *)
Theorem development_argv fuel options dropin w app app_name :
  Preflight w app app_name ->
  in_heroku_env w = false ->
  development app = true ->
  handle_start_command (S fuel) options dropin w =
    ([Execlp "twistd"
        (["twistd"; "--nodaemon"] ++ reactor_option app
         ++ [app_name] ++ port_option options)],
     Replaced).
Proof.
  intros Hpre Hheroku Hdev.
  rewrite (start_launch fuel options dropin w app app_name _ Hpre
             (build_args_shape _ _ _ _)).
  now rewrite Hheroku, Hdev.
Qed.

(** X6: in production, outside managed hosting, the child is spawned
    as [twistd], then the reactor option unless the reactor is selected
    automatically, then [--syslog], the application name and the port
    override; [--nodaemon] is not among its options. *)
Theorem supervised_argv fuel options dropin w app app_name :
  Preflight w app app_name ->
  in_heroku_env w = false ->
  development app = false ->
  let argv := (["twistd"] ++ reactor_option app
               ++ ["--syslog"; app_name] ++ port_option options)%list in
  (exists rest,
     handle_start_command (S fuel) options dropin w =
       prepend (banner dropin app_name ++ [Popen argv]) rest) /\
  ~ In "--nodaemon" (["twistd"] ++ reactor_option app ++ ["--syslog"]).
Proof.
  intros Hpre Hheroku Hdev argv. split.
  - rewrite (start_launch fuel options dropin w app app_name _ Hpre
               (build_args_shape _ _ _ _)).
    rewrite Hheroku, Hdev. cbn [orb]. fold argv.
    destruct (communicate argv w) as [[out err] w'].
    eexists. reflexivity.
  - unfold reactor_option. pose proof (reactor_is_not_nodaemon app) as Hr.
    destruct (auto_select_reactor app); cbn; intuition discriminate.
Qed.

Lemma final_last {A} (l : list A) (x : A) : Py.final (l ++ [x]) = Some x.
Proof. unfold Py.final. now rewrite rev_app_distr. Qed.

(** X7: a start given a port passes [--port=<port>] as the last
    argument of every launch of its run, the retries included. *)
Theorem port_override_on_every_launch o fuel dropin w :
  Py.truthy (opt_port o) = true ->
  Forall (fun argv => Py.final argv = Some ("--port=" ++ opt_port o))
         (launches (fst (handle_start_command fuel (Some o) dropin w))).
Proof.
  intros Hport.
  eapply Forall_impl; [|apply start_launches_built].
  intros argv (app & h & n & Hbuilt).
  rewrite build_args_port in Hbuilt by assumption.
  destruct (build_args app h n None) as [plain|]; [|discriminate Hbuilt].
  injection Hbuilt as <-. apply final_last.
Qed.

(** X8: a process started by [os.execlp] always gets [--nodaemon] as
    its first option, and a child spawned under supervision never does
    and always gets [--syslog]: it is the supervised child that
    detaches. *)
Theorem foreground_iff_exec options fuel : forall dropin w,
  Forall foreground_matches (fst (handle_start_command fuel options dropin w)).
Proof.
  induction fuel as [|fuel IH]; intros dropin w; [constructor|].
  destruct (start_cases fuel options dropin w)
    as [[text ->] | (app & app_name & args & _ & Hargs & Hrun)].
  - repeat constructor.
  - rewrite build_args_shape in Hargs. injection Hargs as <-.
    destruct Hrun as [[Hb ->] | (Hh & Hd & out & err & w' & _ & ->)].
    + constructor; [|constructor]. cbn.
      destruct (in_heroku_env w); [reflexivity|].
      cbn in Hb. now rewrite Hb.
    + rewrite Hh, Hd. unfold prepend. cbn [fst].
      rewrite <- app_assoc. apply Forall_app. split.
      * destruct dropin; repeat constructor.
      * constructor.
        -- pose proof (reactor_is_not_nodaemon app) as Hr.
           unfold reactor_option. cbn.
           destruct (auto_select_reactor app); cbn; split;
             solve [congruence | discriminate | tauto].
        -- unfold after_spawn.
           destruct (classify out err);
             [repeat constructor | apply IH | repeat constructor].
Qed.

(** *** The name of the application *)

Lemma split_not_empty sep s : Py.split sep s <> [].
Proof.
  destruct s as [|c rest]; cbn; [discriminate|].
  destruct (Ascii.eqb c sep); [discriminate|].
  destruct (Py.split sep rest); discriminate.
Qed.

Lemma split_free sep s : free_of sep s = true -> Py.split sep s = [s].
Proof.
  induction s as [|c rest IH]; cbn; [reflexivity|].
  intros H. apply andb_true_iff in H as [Hc Hrest].
  apply negb_true_iff in Hc. rewrite Hc, (IH Hrest). reflexivity.
Qed.

Lemma split_app sep a b :
  Py.split sep (a ++ String sep b) = (Py.split sep a ++ Py.split sep b)%list.
Proof.
  induction a as [|c a IH]; cbn.
  - now rewrite Ascii.eqb_refl.
  - destruct (Ascii.eqb c sep); [now rewrite IH|].
    rewrite IH.
    destruct (Py.split sep a) as [|piece more] eqn:Hsplit; [|reflexivity].
    now destruct (split_not_empty sep a).
Qed.

(** Cutting at a separator and joining with it gives the string back. *)
Lemma join_split sep s : Py.join sep (Py.split sep s) = s.
Proof.
  induction s as [|c rest IH]; [reflexivity|].
  cbn [Py.split].
  destruct (Ascii.eqb_spec c sep) as [-> | Hneq].
  - destruct (Py.split sep rest) as [|piece more] eqn:Hsplit;
      [now destruct (split_not_empty sep rest)|].
    cbn [Py.join]. cbn [Py.join] in IH. now rewrite IH.
  - destruct (Py.split sep rest) as [|piece more] eqn:Hsplit;
      [now destruct (split_not_empty sep rest)|].
    destruct more as [|next more]; cbn [Py.join] in IH |- *.
    + now rewrite IH.
    + cbn. now rewrite IH.
Qed.

Lemma rsplit1_last sep name suffix :
  free_of sep suffix = true ->
  Py.rsplit1 sep (name ++ String sep suffix) = [name; suffix].
Proof.
  intros Hfree. unfold Py.rsplit1.
  rewrite split_app, (split_free _ _ Hfree), rev_app_distr. cbn [rev List.app].
  destruct (rev (Py.split sep name)) as [|x before] eqn:Hrev.
  - apply (f_equal (@rev string)) in Hrev. rewrite rev_involutive in Hrev.
    now destruct (split_not_empty sep name).
  - rewrite <- Hrev, rev_involutive, join_split. reflexivity.
Qed.

Lemma file_of_path sep dir file :
  free_of sep file = true ->
  Py.final (Py.split sep (dir ++ String sep file)) = Some file.
Proof.
  intros Hfree. rewrite split_app, (split_free _ _ Hfree). apply final_last.
Qed.

(** X9: the application is named after the first file [glob] finds:
    the name is what stands between the last path separator and the last
    underscore of that path; further files are not looked at. *)
Theorem name_from_plugin_file dir name suffix others :
  free_of os_sep (name ++ String "_" suffix) = true ->
  free_of "_" suffix = true ->
  plugin_app_name ((dir ++ String os_sep (name ++ String "_" suffix)) :: others) =
    Some name.
Proof.
  intros Hfile Hsuffix. unfold plugin_app_name. cbn [Py.first hd_error].
  rewrite (file_of_path _ _ _ Hfile), (rsplit1_last _ _ _ Hsuffix).
  reflexivity.
Qed.

(** X10: a plugin file without an underscore gives its whole file name,
    extension included, as the name of the application. *)
Theorem name_without_underscore dir file others :
  free_of os_sep file = true ->
  free_of "_" file = true ->
  plugin_app_name ((dir ++ String os_sep file) :: others) = Some file.
Proof.
  intros Hfile Hplain. unfold plugin_app_name. cbn [Py.first hd_error].
  rewrite (file_of_path _ _ _ Hfile). unfold Py.rsplit1.
  now rewrite (split_free _ _ Hplain).
Qed.

Lemma plugin_app_name_found path others :
  exists name, plugin_app_name (path :: others) = Some name.
Proof.
  unfold plugin_app_name. cbn [Py.first hd_error]. unfold Py.final.
  destruct (rev (Py.split os_sep path)) as [|file before] eqn:Hrev.
  - apply (f_equal (@rev string)) in Hrev. rewrite rev_involutive in Hrev.
    now destruct (split_not_empty os_sep path).
  - cbn [hd_error]. unfold Py.rsplit1.
    destruct (rev (Py.split "_" file)) as [|x [|y before']];
      eexists; reflexivity.
Qed.

(** X11: with the services imported and the port check passed, a start
    ends with the twisted-directory error exactly when [glob] finds no
    plugin file; any file it finds gives a name. *)
Theorem no_plugin_iff_empty_glob fuel options dropin w app :
  import_services w = Some app ->
  port_check_passes app w = true ->
  (handle_start_command (S fuel) options dropin w =
     ([Write (no_twisted_msg ++ newline)], Exit (-1) w) <->
   glob w "twisted/plugins/*.py" = []).
Proof.
  intros Himp Hport.
  pose proof (start_checks fuel options dropin w) as Hc. cbn zeta in Hc.
  rewrite Himp, Hport in Hc.
  split.
  - intros Hrun.
    destruct (glob w "twisted/plugins/*.py") as [|path others]; [reflexivity|].
    exfalso.
    destruct (plugin_app_name_found path others) as [app_name Hname].
    rewrite Hname in Hc.
    destruct (read_file w "twistd.pid").
    + rewrite Hc in Hrun. vm_compute in Hrun. discriminate Hrun.
    + destruct (build_args_total app (in_heroku_env w) app_name options)
        as [args Hargs].
      rewrite (start_launch _ _ _ _ _ _ _ Hc Hargs) in Hrun.
      destruct (in_heroku_env w || development app); [discriminate Hrun|].
      destruct (communicate args w) as [[out err] w'].
      destruct (after_spawn fuel options out err w') as [t r].
      unfold prepend in Hrun. destruct dropin; cbn in Hrun; discriminate Hrun.
  - intros Hglob. rewrite Hglob in Hc. exact Hc.
Qed.

(** *** Stop and restart, the other ways *)

(** X12: a marker whose content [int] refuses makes the stop print
    [Fail] and let [ValueError] go up: no signal is sent. *)
Theorem stop_unreadable_marker w app pid :
  import_services w = Some app ->
  read_file w "twistd.pid" = Some pid ->
  py_int pid = None ->
  handle_stop_command w =
    ([Write (killing_msg pid);
      Write ("[" ++ darkred "Fail" ++ "]" ++ newline)],
     Raised ValueError w) /\
  signals (fst (handle_stop_command w)) = [].
Proof.
  intros Himp Hpid Hint. rewrite stop_run, Himp, Hpid, Hint. now split.
Qed.

(** X13: where the services cannot be imported, start, stop and restart
    all end with the same error and exit code -1, whatever else is
    there: a marker that is present is neither reported nor used. *)
Theorem outside_application_root fuel options dropin w :
  import_services w = None ->
  let refused := ([Write (not_in_root_msg ++ newline)], Exit (-1) w) in
  handle_start_command (S fuel) options dropin w = refused /\
  handle_stop_command w = refused /\
  handle_restart_command fuel w = refused.
Proof.
  intros Himp refused.
  pose proof (start_checks fuel options dropin w) as Hc. cbn zeta in Hc.
  rewrite Himp in Hc.
  assert (Hstop : handle_stop_command w = refused)
    by (now rewrite stop_run, Himp).
  repeat split; try assumption.
  unfold handle_restart_command. now apply bind_raised.
Qed.

(** X14: a stop launches nothing, takes no pause and sends at most one
    signal: SIGINT, to the process id read from the marker. *)
Theorem stop_signals_once w :
  let t := fst (handle_stop_command w) in
  launches t = [] /\
  pauses t = [] /\
  (signals t = [] \/
   exists pid n,
     read_file w "twistd.pid" = Some pid /\ py_int pid = Some n /\
     signals t = [(n, SIGINT)]).
Proof.
  cbn zeta. rewrite stop_run.
  destruct (import_services w); [|now repeat split; left].
  destruct (read_file w "twistd.pid") as [pid|]; [|now repeat split; left].
  destruct (py_int pid) as [n|] eqn:Hint; [|now repeat split; left].
  destruct (kill n SIGINT w) as [[e|] w'];
    (repeat split; try reflexivity; right; now exists pid, n).
Qed.

Lemma restart_is_stop fuel w :
  (forall u w1, snd (handle_stop_command w) <> Done u w1) ->
  handle_restart_command fuel w = handle_stop_command w.
Proof.
  intros Hr. unfold handle_restart_command, bind at 1.
  destruct (handle_stop_command w) as [t [u w1 | e w1 | |]];
    [now destruct (Hr u w1) | reflexivity..].
Qed.

(** X15: a restart of an application that is not running does not
    start it: without the marker the restart is the failed stop, one
    error line and exit code -1, and nothing is launched. *)
Theorem restart_needs_marker fuel w :
  read_file w "twistd.pid" = None ->
  handle_restart_command fuel w = handle_stop_command w /\
  (exists text, handle_restart_command fuel w = ([Write text], Exit (-1) w)) /\
  launches (fst (handle_restart_command fuel w)) = [].
Proof.
  intros Hnone.
  destruct (stop_without_marker w Hnone) as [text Hstop].
  assert (E : handle_restart_command fuel w = handle_stop_command w).
  { apply restart_is_stop. rewrite Hstop. discriminate. }
  rewrite E, Hstop. repeat split. now exists text.
Qed.

(** X16: when [os.kill] raises, the restart ends there: [Fail] is
    printed, the error goes up, the marker is not waited for and nothing
    is started. *)
Theorem restart_kill_fails fuel w app pid n e w1 :
  import_services w = Some app ->
  read_file w "twistd.pid" = Some pid ->
  py_int pid = Some n ->
  kill n SIGINT w = (Some e, w1) ->
  handle_restart_command fuel w =
    ([Write (killing_msg pid); Kill n SIGINT;
      Write ("[" ++ darkred "Fail" ++ "]" ++ newline)],
     Raised e w1).
Proof.
  intros Himp Hpid Hint Hkill.
  assert (Hstop : handle_stop_command w =
            ([Write (killing_msg pid); Kill n SIGINT;
              Write ("[" ++ darkred "Fail" ++ "]" ++ newline)],
             Raised e w1))
    by (now rewrite stop_run, Himp, Hpid, Hint, Hkill).
  rewrite restart_is_stop; [exact Hstop|].
  rewrite Hstop. discriminate.
Qed.

Lemma wait_trace fuel : forall w,
  launches (fst (wait_pid_removed fuel w)) = [] /\
  signals (fst (wait_pid_removed fuel w)) = [].
Proof.
  intros w.
  assert (Hs : forall n, signals (repeat (Sleep (1 # 10)) n) = [])
    by (induction n; [reflexivity | assumption]).
  destruct (wait_cases fuel w) as [(n & _ & _ & _ & ->) | (_ & ->)];
    cbn [fst]; now rewrite launches_pauses, Hs.
Qed.

(** What the later proofs need of a start: it does not return and it
    sends no signal. *)
Lemma start_run_facts options fuel : forall dropin w,
  (forall u w1, snd (handle_start_command fuel options dropin w) <> Done u w1) /\
  signals (fst (handle_start_command fuel options dropin w)) = [].
Proof.
  induction fuel as [|fuel IH]; intros dropin w; [split; [discriminate | reflexivity]|].
  destruct (start_cases fuel options dropin w)
    as [[text ->] | (app & app_name & args & _ & _ & Hrun)];
    [split; [discriminate | reflexivity]|].
  destruct Hrun as [[_ ->] | (_ & _ & out & err & w' & _ & ->)];
    [split; [discriminate | reflexivity]|].
  unfold prepend, after_spawn. cbn [fst snd]. rewrite !signals_app.
  assert (Hb : signals (banner dropin app_name) = []) by now destruct dropin.
  rewrite Hb. cbn [List.app signals].
  destruct (classify out err);
    [split; [discriminate | reflexivity] | apply IH
    | split; [discriminate | reflexivity]].
Qed.

(** X17: a restart launches something only after [os.kill] delivered
    SIGINT to the process of the marker, and that is the only signal of
    the whole run. *)
Theorem restart_launches_after_signal fuel w :
  launches (fst (handle_restart_command fuel w)) <> [] ->
  exists pid n w1,
    read_file w "twistd.pid" = Some pid /\
    py_int pid = Some n /\
    kill n SIGINT w = (None, w1) /\
    signals (fst (handle_restart_command fuel w)) = [(n, SIGINT)].
Proof.
  intros Hlaunched.
  assert (Hdone : exists t w1, handle_stop_command w = (t, Done tt w1)).
  { destruct (handle_stop_command w) as [t r] eqn:Hstop.
    destruct r as [[] w1 | e w1 | |]; [now exists t, w1 | exfalso..];
      apply Hlaunched;
      (rewrite restart_is_stop by (rewrite Hstop; discriminate));
      apply stop_launches_nothing. }
  destruct Hdone as (t & w1 & Hstop).
  pose proof Hstop as Hshape. rewrite stop_run in Hshape.
  destruct (import_services w); [|discriminate Hshape].
  destruct (read_file w "twistd.pid") as [pid|] eqn:Hpid; [|discriminate Hshape].
  destruct (py_int pid) as [n|] eqn:Hint; [|discriminate Hshape].
  destruct (kill n SIGINT w) as [[e|] w2] eqn:Hkill; [discriminate Hshape|].
  injection Hshape as <- <-.
  exists pid, n, w2. split; [reflexivity|]. split; [exact Hint|].
  split; [exact Hkill|].
  unfold handle_restart_command. rewrite (bind_done _ _ _ _ _ _ Hstop).
  unfold prepend. cbn [fst]. rewrite signals_app.
  cbn [signals List.app]. do 2 f_equal.
  destruct (wait_cases fuel w2) as [(k & _ & _ & _ & Hrun) | (_ & Hrun)].
  - rewrite (bind_done _ _ _ _ _ _ Hrun). unfold prepend. cbn [fst].
    rewrite signals_app.
    destruct (start_run_facts None fuel false (after_pauses k w2)) as [_ ->].
    rewrite app_nil_r. clear. induction k; [reflexivity | assumption].
  - unfold bind. rewrite Hrun. cbn [fst].
    clear. induction fuel; [reflexivity | assumption].
Qed.

(** *** A start where no port is privileged *)

(** X18: on a platform that is not POSIX the port is not looked at: a
    start with the services imported, a plugin file and no marker
    launches [twistd], whatever the port and the user. *)
Theorem no_port_check_without_posix fuel options dropin w app app_name :
  POSIX = false ->
  import_services w = Some app ->
  plugin_app_name (glob w "twisted/plugins/*.py") = Some app_name ->
  read_file w "twistd.pid" = None ->
  check_port app w = ([], Done tt w) /\
  exists argv more,
    launches (fst (handle_start_command (S fuel) options dropin w)) = argv :: more.
Proof.
  intros HP Himp Hplug Hpid.
  split; [now apply check_port_skipped|].
  assert (Hpre : Preflight w app app_name).
  { constructor; try assumption. unfold port_check_passes. now rewrite HP. }
  destruct (build_args_total app (in_heroku_env w) app_name options)
    as [args Hargs].
  rewrite (start_launch _ _ _ _ _ _ _ Hpre Hargs).
  destruct (in_heroku_env w || development app); [now exists args, []|].
  destruct (communicate args w) as [[out err] w'].
  unfold prepend. cbn [fst]. rewrite !launches_app, launches_banner. cbn.
  eexists _, _. reflexivity.
Qed.

(** *** What the user sees of a failure *)

(** X19: when the failure is found in stdout (stderr is empty, stdout
    holds [exception]), the text printed after [Fail] is stderr, that is
    an empty line: what the child wrote is not shown. *)
Theorem stdout_failure_prints_nothing
    fuel options dropin w app app_name args out w' :
  Preflight w app app_name ->
  in_heroku_env w = false ->
  development app = false ->
  build_args app false app_name options = Some args ->
  communicate args w = (out, "", w') ->
  Py.contains "exception" out = true ->
  handle_start_command (S fuel) options dropin w =
    ((banner dropin app_name ++
      [Popen args; Write ("[" ++ darkred "Fail" ++ "]" ++ newline);
       Write newline])%list,
     Exit (-1) w').
Proof.
  intros Hpre Hheroku Hdev Hargs Hrun Hexc.
  rewrite <- Hheroku in Hargs.
  rewrite (start_launch _ _ _ _ _ _ _ Hpre Hargs), Hheroku, Hdev, Hrun.
  cbn [orb]. unfold after_spawn, classify. cbn [Py.truthy negb].
  rewrite Hexc. unfold prepend. cbn [fst snd].
  now rewrite <- app_assoc.
Qed.

End Further.

(** * Properties of [run] *)

Section DispatchProperties.

Context {host : Host} {tools : Tools}.

Lemma bind_unit_r (m : M unit) (k : unit -> M unit) w :
  (forall u w', k u w' = ([], Done tt w')) -> bind m k w = m w.
Proof.
  intros Hk. unfold bind. destruct (m w) as [t [[] w' | e w' | |]];
    try reflexivity.
  rewrite Hk. now rewrite app_nil_r.
Qed.

Lemma bind_ret_l {A B} (a : A) (k : A -> M B) w : bind (ret a) k w = k a w.
Proof. unfold bind, ret. now destruct (k a w). Qed.

(** Decides the comparisons of the sub-command with the names [run]
    tests for. *)
Ltac compare_names :=
  repeat match goal with
         | |- context [String.eqb ?a ?b] =>
             let v := eval vm_compute in (String.eqb a b) in
             change (String.eqb a b) with v
         end;
  cbv beta iota delta [when].

(** X20: when the command line is refused, [run] prints the name of the
    program and the error and exits with code 1; no handler runs. *)
Theorem usage_error_exits_one fuel w t text w' :
  parseOptions w = (t, Done (inl text) w') ->
  run fuel w =
    ((t ++ [Write ((argv0 ++ ": " ++ text) ++ newline)])%list, Exit 1 w').
Proof.
  intros Hparse. unfold run. rewrite (bind_done _ _ _ _ _ _ Hparse).
  now rewrite print_exit.
Qed.

(** X21: [run] performs the handler of the sub-command and nothing
    else: after the parsing, a [start] is the start with the port of the
    command line, a [stop] is the stop, a [restart] is the restart, each
    one's end being the end of [run]; no sub-command, nothing done. *)
Theorem run_dispatch fuel w t options w' :
  parseOptions w = (t, Done (inr options) w') ->
  (subCommand options = Some "start" ->
     run fuel w =
       prepend t (handle_start_command fuel
                    (Some {| opt_port := opts_port (subOptions options) |})
                    false w')) /\
  (subCommand options = Some "stop" ->
     run fuel w = prepend t (handle_stop_command w')) /\
  (subCommand options = Some "restart" ->
     run fuel w = prepend t (handle_restart_command fuel w')) /\
  (subCommand options = None -> run fuel w = (t, Done tt w')).
Proof.
  intros Hparse. unfold run. rewrite (bind_done _ _ _ _ _ _ Hparse).
  unfold is_command.
  split; [|split; [|split]]; intros ->; compare_names; rewrite ?bind_ret_l.
  - f_equal. apply bind_unit_r. reflexivity.
  - f_equal. apply bind_unit_r. reflexivity.
  - f_equal. apply bind_unit_r. reflexivity.
  - unfold prepend, ret. cbn [fst snd]. now rewrite app_nil_r.
Qed.

End DispatchProperties.

(** * Further runs on the scripted host *)

Lemma exit_zero_means_success_witness :
  exists w0 app app_name args out before,
    @retried Sim.linux None Sim.stopped w0 /\
    @Preflight Sim.linux w0 app app_name /\
    @in_heroku_env Sim.linux w0 = false /\
    development app = false /\
    @build_args Sim.linux app false app_name None = Some args /\
    @communicate Sim.linux args w0 = (out, "", Sim.stopped) /\
    classify out "" = Success /\
    fst (@handle_start_command Sim.linux 1 None false Sim.stopped) =
      (before ++ [Popen args;
                  Write ("[" ++ Sim.green "Ok" ++ "]" ++ newline);
                  Write (out ++ newline)])%list.
Proof.
  exact (@exit_zero_means_success Sim.linux None 1 false Sim.stopped Sim.stopped
           eq_refl).
Defined.

Lemma hosted_preflight : @Preflight Sim.linux hosted Sim.production "dummy".
Proof. constructor; reflexivity. Qed.

Lemma hosted_argv_witness :
  @in_heroku_env Sim.linux hosted = true /\
  @handle_start_command Sim.linux 1 None false hosted =
    ([Execlp "twistd" ["twistd"; "--nodaemon"; "dummy"]], Replaced).
Proof.
  split; [reflexivity|].
  exact (@hosted_argv Sim.linux 0 None false hosted Sim.production "dummy"
           hosted_preflight eq_refl).
Defined.

Lemma development_preflight :
  @Preflight Sim.linux (Sim.with_config in_development Sim.stopped)
    in_development "dummy".
Proof. constructor; reflexivity. Qed.

Lemma development_argv_witness :
  development in_development = true /\
  @handle_start_command Sim.linux 1 (Some {| opt_port := "9000" |}) false
      (Sim.with_config in_development Sim.stopped) =
    ([Execlp "twistd" ["twistd"; "--nodaemon"; "dummy"; "--port=9000"]],
     Replaced).
Proof.
  split; [reflexivity|].
  exact (@development_argv Sim.linux 0 (Some {| opt_port := "9000" |}) false
           (Sim.with_config in_development Sim.stopped) in_development "dummy"
           development_preflight eq_refl eq_refl).
Defined.

Lemma supervised_argv_witness :
  exists rest,
    @handle_start_command Sim.linux 1 (Some {| opt_port := "9000" |}) false
        Sim.stopped =
      prepend [Write (starting_msg "dummy");
               Popen ["twistd"; "--reactor=epoll"; "--syslog"; "dummy";
                      "--port=9000"]]
              rest.
Proof.
  exact (proj1 (@supervised_argv Sim.linux 0 (Some {| opt_port := "9000" |})
                  false Sim.stopped Sim.production "dummy"
                  stopped_preflight eq_refl eq_refl)).
Defined.

Lemma port_override_on_every_launch_witness :
  Forall (fun argv => Py.final argv = Some "--port=9000")
    (launches (fst (@handle_start_command Sim.linux 2
                      (Some {| opt_port := "9000" |}) false Sim.stale))).
Proof.
  exact (@port_override_on_every_launch Sim.linux {| opt_port := "9000" |}
           2 false Sim.stale eq_refl).
Defined.

Lemma name_from_plugin_file_witness :
  @plugin_app_name Sim.linux ["twisted/plugins/my_app_plugin.py"] = Some "my_app".
Proof.
  exact (@name_from_plugin_file Sim.linux "twisted/plugins" "my_app" "plugin.py"
           [] eq_refl eq_refl).
Defined.

Lemma name_without_underscore_witness :
  @plugin_app_name Sim.linux ["twisted/plugins/plain.py"] = Some "plain.py".
Proof.
  exact (@name_without_underscore Sim.linux "twisted/plugins" "plain.py"
           [] eq_refl eq_refl).
Defined.

Lemma no_plugin_iff_empty_glob_witness :
  @handle_start_command Sim.linux 1 None false without_plugins =
    ([Write (no_twisted_msg ++ newline)],
     @Raised Sim.linux unit (SystemExit (-1)) without_plugins).
Proof.
  exact (proj2 (@no_plugin_iff_empty_glob Sim.linux 0 None false without_plugins
                  Sim.production eq_refl eq_refl) eq_refl).
Defined.

Lemma stop_unreadable_marker_witness :
  @signals (fst (@handle_stop_command Sim.linux
                   (Sim.with_pid "abc" None Sim.stopped))) = [].
Proof.
  exact (proj2 (@stop_unreadable_marker Sim.linux
                  (Sim.with_pid "abc" None Sim.stopped) Sim.production "abc"
                  eq_refl eq_refl eq_refl)).
Defined.

Lemma outside_application_root_witness :
  @read_file Sim.linux elsewhere "twistd.pid" = Some "4242" /\
  @handle_stop_command Sim.linux elsewhere =
    ([Write (not_in_root_msg ++ newline)],
     @Raised Sim.linux unit (SystemExit (-1)) elsewhere).
Proof.
  split; [reflexivity|].
  exact (proj1 (proj2 (@outside_application_root Sim.linux 0 None false
                         elsewhere eq_refl))).
Defined.

Lemma restart_needs_marker_witness :
  launches (fst (@handle_restart_command Sim.linux 5 Sim.stopped)) = [].
Proof.
  exact (proj2 (proj2 (@restart_needs_marker Sim.linux 5 Sim.stopped eq_refl))).
Defined.

Lemma restart_kill_fails_witness :
  @handle_restart_command Sim.linux 5 orphaned =
    ([Write (killing_msg "4242"); Kill 4242 SIGINT;
      Write ("[" ++ Sim.red "Fail" ++ "]" ++ newline)],
     @Raised Sim.linux unit OSError orphaned).
Proof.
  exact (@restart_kill_fails Sim.linux 5 orphaned Sim.production "4242" 4242
           OSError orphaned eq_refl eq_refl eq_refl eq_refl).
Defined.

Lemma restart_launches_after_signal_witness :
  exists pid n w1,
    @read_file Sim.linux Sim.running "twistd.pid" = Some pid /\
    @py_int Sim.linux pid = Some n /\
    @kill Sim.linux n SIGINT Sim.running = (None, w1) /\
    signals (fst (@handle_restart_command Sim.linux 5 Sim.running)) =
      [(n, SIGINT)].
Proof.
  assert (H : launches (fst (@handle_restart_command Sim.linux 5 Sim.running)) <> [])
    by (vm_compute; discriminate).
  exact (@restart_launches_after_signal Sim.linux 5 Sim.running H).
Defined.

Lemma no_port_check_without_posix_witness :
  port portless = None /\
  exists argv more,
    launches (fst (@handle_start_command unprivileged_host 1 None false on_windows)) =
      argv :: more.
Proof.
  split; [reflexivity|].
  exact (proj2 (@no_port_check_without_posix unprivileged_host 0 None false
                  on_windows portless "dummy" eq_refl eq_refl eq_refl eq_refl)).
Defined.

Lemma crashed_preflight : @Preflight Sim.linux crashed Sim.production "dummy".
Proof. constructor; reflexivity. Qed.

Lemma stdout_failure_prints_nothing_witness :
  @handle_start_command Sim.linux 1 None false crashed =
    ([Write (starting_msg "dummy");
      Popen ["twistd"; "--reactor=epoll"; "--syslog"; "dummy"];
      Write ("[" ++ Sim.red "Fail" ++ "]" ++ newline);
      Write newline],
     @Raised Sim.linux unit (SystemExit (-1)) Sim.stopped).
Proof.
  exact (@stdout_failure_prints_nothing Sim.linux 0 None false crashed
           Sim.production "dummy"
           ["twistd"; "--reactor=epoll"; "--syslog"; "dummy"]
           "Unhandled exception in thread" Sim.stopped
           crashed_preflight eq_refl eq_refl eq_refl eq_refl eq_refl).
Defined.

Lemma usage_error_exits_one_witness :
  @run Sim.linux (scripted_tools (inl "Unknown command: strat")) 1 Sim.stopped =
    ([Write ("mamba-admin: Unknown command: strat" ++ newline)],
     @Raised Sim.linux unit (SystemExit 1) Sim.stopped).
Proof.
  exact (@usage_error_exits_one Sim.linux
           (scripted_tools (inl "Unknown command: strat")) 1 Sim.stopped []
           "Unknown command: strat" Sim.stopped eq_refl).
Defined.

Lemma run_dispatch_witness :
  launches (fst (@run Sim.linux (scripted_tools (inr (command "start" "9000")))
                   1 Sim.stopped)) =
    [["twistd"; "--reactor=epoll"; "--syslog"; "dummy"; "--port=9000"]].
Proof.
  rewrite (proj1 (@run_dispatch Sim.linux
                    (scripted_tools (inr (command "start" "9000"))) 1
                    Sim.stopped [] (command "start" "9000") Sim.stopped eq_refl)
             eq_refl).
  reflexivity.
Defined.
